(** * recy-api: error responder and audit-creation workflow

    A shallow embedding of
    - [src/shared/utils/zod-validation.pipe.ts] ([ZodValidationPipe] and the
      [AllExceptionsFilter] that shares its file), and
    - the two versions of [AuditService] (audit.service.ts),
    followed by the properties of the error envelope and of the audit
    workflow that the specification states about them. *)

From Stdlib Require Import String Ascii List ZArith Lia Bool.
From stdpp Require Import base option list strings gmap pretty.

Import ListNotations.
Local Open Scope string_scope.
Local Open Scope Z_scope.

(** ** JavaScript values

    Just enough of the JavaScript data model for what the two files do with
    values: [typeof x === 'object'], [a || b], template literals,
    property reads and object spread. *)
Module Js.

#[local] Unset Elimination Schemes.
Inductive JsValue : Type :=
| JUndefined
| JNull
| JBool (b : bool)
| JNum (n : Z)
| JStr (s : string)
| JArr (xs : list JsValue)
| JObj (fields : list (string * JsValue)).
#[local] Set Elimination Schemes.

(** An object is its list of own enumerable properties, in insertion order.
    JavaScript itself lists the properties named by an array index before
    the others: the list is in the object's own order when no key is one,
    and what [obj_get] and [has_key] read does not depend on the order. *)
Definition JsObject : Type := list (string * JsValue).

(** [typeof v === 'object'] (which [null] and arrays satisfy). *)
Definition typeof_object (v : JsValue) : bool :=
  match v with
  | JNull | JArr _ | JObj _ => true
  | _ => false
  end.

Definition truthy (v : JsValue) : bool :=
  match v with
  | JUndefined | JNull => false
  | JBool b => b
  | JNum n => negb (n =? 0)
  | JStr s => negb (String.eqb s "")
  | JArr _ | JObj _ => true
  end.

(** [a || b] *)
Definition js_or (a b : JsValue) : JsValue := if truthy a then a else b.

(** String conversion as done by a template literal [`${v}`]. An array
    prints its elements separated by commas, [null] and [undefined]
    elements printing as nothing. A number is an integer, printed in
    decimal, as JavaScript prints the integers below 1e21. *)
Fixpoint to_string (v : JsValue) : string :=
  match v with
  | JUndefined => "undefined"
  | JNull => "null"
  | JBool true => "true"
  | JBool false => "false"
  | JNum n => pretty n
  | JStr s => s
  | JArr xs =>
      String.concat ","
        (List.map (fun x => match x with
                            | JUndefined | JNull => ""
                            | _ => to_string x
                            end) xs)
  | JObj _ => "[object Object]"
  end.

Fixpoint obj_get (k : string) (o : JsObject) : option JsValue :=
  match o with
  | [] => None
  | (k', v) :: o' => if String.eqb k' k then Some v else obj_get k o'
  end.

Definition has_key (k : string) (o : JsObject) : bool :=
  match obj_get k o with Some _ => true | None => false end.

(** [o.k] on an object: a missing property reads as [undefined]. *)
Definition prop (k : string) (o : JsObject) : JsValue :=
  match obj_get k o with Some v => v | None => JUndefined end.

(** [o[k] = v]: overwrite in place, or append a new property. *)
Fixpoint obj_set (k : string) (v : JsValue) (o : JsObject) : JsObject :=
  match o with
  | [] => [(k, v)]
  | (k', v') :: o' =>
      if String.eqb k' k then (k', v) :: o' else (k', v') :: obj_set k v o'
  end.

Definition assign (target source : JsObject) : JsObject :=
  fold_left (fun acc kv => obj_set (fst kv) (snd kv) acc) source target.

Fixpoint indexed (i : N) (xs : list JsValue) : JsObject :=
  match xs with
  | [] => []
  | x :: xs' => (pretty i, x) :: indexed (N.succ i) xs'
  end.

(** The own enumerable properties that [...v] copies into an object literal:
    the fields of an object, the indices of an array or of a string, nothing
    for the other primitives. *)
Definition own_props (v : JsValue) : JsObject :=
  match v with
  | JObj fields => fields
  | JArr xs => indexed 0 xs
  | JStr s =>
      indexed 0 (List.map (fun c => JStr (String c EmptyString))
                          (list_ascii_of_string s))
  | _ => []
  end.

(** [{ ...base, ...v }] *)
Definition spread (base : JsObject) (v : JsValue) : JsObject :=
  assign base (own_props v).

End Js.
Export Js.

(** ** Failures

    Everything that can reach a [catch] clause or the exception filter. *)

(** zod: one issue of a [ZodError]; [path] is a [(string | number)[]], a
    number being a position in an array. *)
Module Zod.

Inductive PathSeg : Type :=
| Key (s : string)
| Index (n : N).

Record ZodIssue : Type := { message : string; path : list PathSeg }.

Definition seg_to_string (p : PathSeg) : string :=
  match p with
  | Key s => s
  | Index n => pretty n
  end.

Definition seg_to_js (p : PathSeg) : JsValue :=
  match p with
  | Key s => JStr s
  | Index n => JNum (Z.of_N n)
  end.

(** [path.join('.')] *)
Definition join_path (p : list PathSeg) : string :=
  String.concat "." (List.map seg_to_string p).

End Zod.

(** @nestjs/common: [HttpStatus] and the [HttpException] classes in use. *)
Module HttpStatus.
Definition BAD_REQUEST : Z := 400.
Definition NOT_FOUND : Z := 404.
Definition INTERNAL_SERVER_ERROR : Z := 500.
End HttpStatus.

(** The class of an [HttpException]: one of the three subclasses thrown in
    this repository, whose status is fixed by the class, or any other
    instance, carrying its own status. *)
Inductive HttpClass : Type :=
| BadRequestExceptionClass
| NotFoundExceptionClass
| InternalServerErrorExceptionClass
| OtherHttpExceptionClass (status : Z).

(** [getResponse(): string | object] *)
Inductive HttpResponse : Type :=
| RespString (s : string)
| RespObject (o : JsObject).

Definition response_to_js (r : HttpResponse) : JsValue :=
  match r with
  | RespString s => JStr s
  | RespObject o => JObj o
  end.

Inductive Exception : Type :=
| ZodError (errors : list Zod.ZodIssue)
| PrismaClientKnownRequestError (code : string) (meta : option JsObject)
| HttpException (cls : HttpClass) (response : HttpResponse)
| OtherError (text : string).

Definition getStatus (cls : HttpClass) : Z :=
  match cls with
  | BadRequestExceptionClass => HttpStatus.BAD_REQUEST
  | NotFoundExceptionClass => HttpStatus.NOT_FOUND
  | InternalServerErrorExceptionClass => HttpStatus.INTERNAL_SERVER_ERROR
  | OtherHttpExceptionClass status => status
  end.

Definition error_description (cls : HttpClass) : string :=
  match cls with
  | BadRequestExceptionClass => "Bad Request"
  | NotFoundExceptionClass => "Not Found"
  | InternalServerErrorExceptionClass => "Internal Server Error"
  | OtherHttpExceptionClass _ => ""
  end.

(** [new XException('text')]: the framework stores the body
    [{ message, error, statusCode }] as the response; without a text (the
    empty string is none to it) the description of the class stands in as
    the message and there is no [error]. *)
Definition http_body (cls : HttpClass) (text : string) : HttpResponse :=
  if String.eqb text "" then
    RespObject [("message", JStr (error_description cls));
                ("statusCode", JNum (getStatus cls))]
  else
    RespObject [("message", JStr text);
                ("error", JStr (error_description cls));
                ("statusCode", JNum (getStatus cls))].

Definition BadRequestException (text : string) : Exception :=
  HttpException BadRequestExceptionClass
                (http_body BadRequestExceptionClass text).

(** [new BadRequestException({...})]: an object argument is the response
    as it is. *)
Definition BadRequestExceptionObj (o : JsObject) : Exception :=
  HttpException BadRequestExceptionClass (RespObject o).

Definition NotFoundException (text : string) : Exception :=
  HttpException NotFoundExceptionClass
                (http_body NotFoundExceptionClass text).

Definition InternalServerErrorException (text : string) : Exception :=
  HttpException InternalServerErrorExceptionClass
                (http_body InternalServerErrorExceptionClass text).

(** What the Prisma client rejects a call with: a
    [PrismaClientKnownRequestError], which carries an error code and its
    [meta], or one of its other errors (connection, time-out, engine), which
    to the code here is just something that is neither of the classes it
    tests for. *)
Inductive PrismaError : Type :=
| KnownRequestError (code : string) (meta : option JsObject)
| UnknownRequestError (text : string).

Definition rejection (e : PrismaError) : Exception :=
  match e with
  | KnownRequestError code meta => PrismaClientKnownRequestError code meta
  | UnknownRequestError text => OtherError text
  end.

(** [exception.meta?.key] *)
Definition meta_prop (meta : option JsObject) (k : string) : JsValue :=
  match meta with
  | Some o => prop k o
  | None => JUndefined
  end.

(** ** The world the code runs in

    The mutable things the two classes reach: the database behind
    [PrismaService], the winston logger, the wall clock and the source of
    ULIDs. *)

(** A [Date]: its instant and how [toISOString()] renders it. *)
Record Date : Type := { epoch_ms : Z; toISOString : string }.

(** Row of the [Audit] table (@prisma/client's [Audit]). *)
Module Audit.
Record t : Type := {
  id : string;
  reportId : string;
  audited : bool;
  auditorId : string;
  comments : option string;
  createdAt : Date;
  updatedAt : Date
}.
End Audit.

(** Row of the [RecyclingReport] table: the two columns the audit workflow
    reads or writes, and the remaining ones as they are. *)
Module RecyclingReport.
Record t : Type := {
  id : string;
  audited : bool;
  columns : JsObject
}.
Definition set_audited (b : bool) (r : t) : t :=
  {| id := id r; audited := b; columns := columns r |}.
End RecyclingReport.

(** update-audit.dto.ts: [UpdateAuditDto], what [UpdateAuditSchema] infers;
    [comments] is [string | null]. *)
Module UpdateAuditDto.
Record t : Type := {
  audited : bool;
  comments : option string
}.
End UpdateAuditDto.

Inductive LogEntry : Type :=
| LogInfo (msg : string) (context : option string)
| LogWarn (msg : string) (context : option string)
| LogError (msg : string) (err : option Exception) (context : option string)
| LogErrorId (errorId : string) (err : Exception) (msg context : string).

Record World : Type := {
  reports : gmap string RecyclingReport.t;
  audits : gmap string Audit.t;
  (** what the store answers to the coming calls, in call order: [Some e]
      makes the call reject with [e] and change nothing *)
  faults : list (option PrismaError);
  ulid_source : nat -> string;
  ulids_drawn : nat;
  clock : nat -> Date;
  ticks : nat;
  logged : list LogEntry
}.

Definition with_db (rs : gmap string RecyclingReport.t)
    (au : gmap string Audit.t) (w : World) : World :=
  {| reports := rs; audits := au; faults := faults w;
     ulid_source := ulid_source w; ulids_drawn := ulids_drawn w;
     clock := clock w; ticks := ticks w; logged := logged w |}.

Definition with_faults (fs : list (option PrismaError)) (w : World)
  : World :=
  {| reports := reports w; audits := audits w; faults := fs;
     ulid_source := ulid_source w; ulids_drawn := ulids_drawn w;
     clock := clock w; ticks := ticks w; logged := logged w |}.

Definition with_ulids_drawn (n : nat) (w : World) : World :=
  {| reports := reports w; audits := audits w; faults := faults w;
     ulid_source := ulid_source w; ulids_drawn := n;
     clock := clock w; ticks := ticks w; logged := logged w |}.

Definition with_ticks (n : nat) (w : World) : World :=
  {| reports := reports w; audits := audits w; faults := faults w;
     ulid_source := ulid_source w; ulids_drawn := ulids_drawn w;
     clock := clock w; ticks := n; logged := logged w |}.

Definition with_logged (l : list LogEntry) (w : World) : World :=
  {| reports := reports w; audits := audits w; faults := faults w;
     ulid_source := ulid_source w; ulids_drawn := ulids_drawn w;
     clock := clock w; ticks := ticks w; logged := l |}.

(** *** Computations: a world in, a value or a thrown failure and a world out *)

Inductive Outcome (A : Type) : Type :=
| Returned (a : A)
| Thrown (e : Exception).
Arguments Returned {A} a.
Arguments Thrown {A} e.

Definition M (A : Type) : Type := World -> Outcome A * World.

Definition ret {A} (a : A) : M A := fun w => (Returned a, w).

Definition throw {A} (e : Exception) : M A := fun w => (Thrown e, w).

Definition bind {A B} (m : M A) (k : A -> M B) : M B :=
  fun w =>
    match m w with
    | (Returned a, w') => k a w'
    | (Thrown e, w') => (Thrown e, w')
    end.

(** [try { m } catch (error) { handler(error) }] *)
Definition try_catch {A} (m : M A) (handler : Exception -> M A) : M A :=
  fun w =>
    match m w with
    | (Returned a, w') => (Returned a, w')
    | (Thrown e, w') => handler e w'
    end.

Notation "'let!' x ':=' m 'in' k" := (bind m (fun x => k))
  (at level 10, x name, m at level 100, k at level 200).
Notation "'do!' m 'in' k" := (bind m (fun _ => k))
  (at level 10, m at level 100, k at level 200).

Definition logger_log (msg : string) (context : option string) : M unit :=
  fun w => (Returned tt, with_logged (logged w ++ [LogInfo msg context]) w).

Definition logger_warn (msg : string) (context : option string) : M unit :=
  fun w => (Returned tt, with_logged (logged w ++ [LogWarn msg context]) w).

Definition logger_error (msg : string) (err : option Exception)
    (context : option string) : M unit :=
  fun w =>
    (Returned tt, with_logged (logged w ++ [LogError msg err context]) w).

(** [logger.error({ errorId, err }, msg, context)] *)
Definition logger_error_id (errorId : string) (err : Exception)
    (msg context : string) : M unit :=
  fun w =>
    (Returned tt,
     with_logged (logged w ++ [LogErrorId errorId err msg context]) w).

(** [ulid()]: the whole identifier, its time prefix and its random part, is
    what [ulid_source] gives for the draw; [ticks] counts the dates made
    with [new Date()] and nothing else. *)
Definition ulid : M string :=
  fun w =>
    (Returned (ulid_source w (ulids_drawn w)),
     with_ulids_drawn (S (ulids_drawn w)) w).

(** [new Date()] *)
Definition new_Date : M Date :=
  fun w => (Returned (clock w (ticks w)), with_ticks (S (ticks w)) w).

(** ** zod-validation.pipe.ts *)

(** *** [ZodValidationPipe] *)
Module ZodValidationPipe.

(** [schema.parse(value)] returns the parsed value or throws. *)
Definition ZodSchema : Type := JsValue -> Outcome JsValue.

Definition issue_detail (e : Zod.ZodIssue) : JsValue :=
  JObj [("field", JStr (Zod.join_path (Zod.path e)));
        ("message", JStr (Zod.message e))].

Definition transform (schema : ZodSchema) (value : JsValue)
  : Outcome JsValue :=
  match schema value with
  | Returned v => Returned v
  | Thrown (ZodError errors) =>
      Thrown (BadRequestExceptionObj
                [("message", JStr "Validation failed");
                 ("details", JArr (List.map issue_detail errors))])
  | Thrown error => Thrown error
  end.

End ZodValidationPipe.

(** *** zod's types, as far as [UpdateAuditSchema] uses them

    A type parses the value found at a path of the input: it gives the
    parsed value, or the issues it has with the value. An object type
    parses every key of its shape, collects the issues of all of them and
    keeps no other key. *)
Module ZodTypes.

Definition ZodType : Type :=
  list Zod.PathSeg -> JsValue -> list Zod.ZodIssue + JsValue.

(** What zod calls the type of a value. *)
Definition parsed_type (v : JsValue) : string :=
  match v with
  | JUndefined => "undefined"
  | JNull => "null"
  | JBool _ => "boolean"
  | JNum _ => "number"
  | JStr _ => "string"
  | JArr _ => "array"
  | JObj _ => "object"
  end.

(** The issue for a value of the wrong type, with zod's default message. *)
Definition invalid_type (expected : string) (path : list Zod.PathSeg)
    (v : JsValue) : Zod.ZodIssue :=
  {| Zod.message :=
       match v with
       | JUndefined => "Required"
       | _ => "Expected " +:+ expected +:+ ", received " +:+ parsed_type v
       end;
     Zod.path := path |}.

(** [z.boolean()] *)
Definition boolean : ZodType :=
  fun path v =>
    match v with
    | JBool _ => inr v
    | _ => inl [invalid_type "boolean" path v]
    end.

(** [z.string()] *)
Definition string_ : ZodType :=
  fun path v =>
    match v with
    | JStr _ => inr v
    | _ => inl [invalid_type "string" path v]
    end.

(** [inner.nullable()] *)
Definition nullable (inner : ZodType) : ZodType :=
  fun path v =>
    match v with
    | JNull => inr JNull
    | _ => inner path v
    end.

(** The keys of a shape parsed one after the other: all the issues, and the
    parsed properties. *)
Fixpoint parse_shape (shape : list (string * ZodType))
    (path : list Zod.PathSeg) (fields : JsObject)
  : list Zod.ZodIssue * JsObject :=
  match shape with
  | [] => ([], [])
  | (k, t) :: shape' =>
      let '(issues, parsed) := parse_shape shape' path fields in
      match t (path ++ [Zod.Key k])%list (prop k fields) with
      | inl here => ((here ++ issues)%list, parsed)
      | inr v => (issues, (k, v) :: parsed)
      end
  end.

(** [z.object(shape)] *)
Definition object (shape : list (string * ZodType)) : ZodType :=
  fun path v =>
    match v with
    | JObj fields =>
        match parse_shape shape path fields with
        | ([], parsed) => inr (JObj parsed)
        | (issues, _) => inl issues
        end
    | _ => inl [invalid_type "object" path v]
    end.

(** [schema.parse(value)] *)
Definition parse (t : ZodType) : ZodValidationPipe.ZodSchema :=
  fun value =>
    match t [] value with
    | inr v => Returned v
    | inl issues => Thrown (ZodError issues)
    end.

End ZodTypes.

(** update-audit.dto.ts *)
Definition UpdateAuditSchema : ZodTypes.ZodType :=
  ZodTypes.object
    [("audited", ZodTypes.boolean);
     ("comments", ZodTypes.nullable ZodTypes.string_)].

(** A parsed body seen as the [UpdateAuditDto] that [z.infer] types it as. *)
Definition UpdateAuditDto_of_js (v : JsValue) : UpdateAuditDto.t :=
  match v with
  | JObj fields =>
      {| UpdateAuditDto.audited :=
           match prop "audited" fields with JBool b => b | _ => false end;
         UpdateAuditDto.comments :=
           match prop "comments" fields with JStr s => Some s | _ => None end
      |}
  | _ => {| UpdateAuditDto.audited := false; UpdateAuditDto.comments := None |}
  end.

Definition UpdateAuditDto_to_js (dto : UpdateAuditDto.t) : JsValue :=
  JObj [("audited", JBool (UpdateAuditDto.audited dto));
        ("comments",
         match UpdateAuditDto.comments dto with
         | Some s => JStr s
         | None => JNull
         end)].

(** *** [AllExceptionsFilter] *)
Module AllExceptionsFilter.

Record ResponseMetadata : Type := {
  status : Z;
  message : JsValue;
  details : JsValue
}.

Record Request : Type := { url : string }.

(** What [response.status(status).json(responseBody)] sends. *)
Record Reply : Type := { reply_status : Z; reply_body : JsObject }.

Definition zod_issue_entry (err : Zod.ZodIssue) : JsValue :=
  JObj [("message", JStr (Zod.message err));
        ("path", JArr (List.map Zod.seg_to_js (Zod.path err)))].

Definition handleZodError (errors : list Zod.ZodIssue) : ResponseMetadata :=
  let status := HttpStatus.BAD_REQUEST in
  let message := JObj [("errors", JArr (List.map zod_issue_entry errors))] in
  {| status := status; message := message; details := JNull |}.

Definition handlePrismaError (code : string) (meta : option JsObject)
  : ResponseMetadata :=
  let status := HttpStatus.BAD_REQUEST in
  let message := "Database error occurred" in
  let '(status, message) :=
    if String.eqb code "P2002" then
      (status,
       "Unique constraint failed on the field: "
         ++ to_string (meta_prop meta "target"))
    else if String.eqb code "P2003" then
      (status,
       "Foreign key constraint failed on the field: "
         ++ to_string (meta_prop meta "field_name"))
    else if String.eqb code "P2025" then
      (HttpStatus.NOT_FOUND, "Record not found for the specified operation.")
    else (status, message) in
  {| status := status; message := JStr message; details := JNull |}.

Definition default_message : string :=
  "Internal server error, contact support and provide the errorId".

Definition getResponseMetadata (exception : Exception) : ResponseMetadata :=
  let status := HttpStatus.INTERNAL_SERVER_ERROR in
  let message := JStr default_message in
  let details := JNull in
  match exception with
  | ZodError errors => handleZodError errors
  | PrismaClientKnownRequestError code meta => handlePrismaError code meta
  | HttpException cls responseMessage =>
      let status := getStatus cls in
      match cls, responseMessage with
      | BadRequestExceptionClass, RespObject o =>
          {| status := status;
             message := prop "message" o;
             details := js_or (prop "details" o) JNull |}
      | _, _ =>
          {| status := status;
             message := response_to_js responseMessage;
             details := details |}
      end
  | OtherError _ =>
      {| status := status; message := message; details := details |}
  end.

Definition generateErrorId : M string := ulid.

Definition buildBaseResponseBody (status : Z) (request : Request)
    (message details : JsValue) : M JsObject :=
  let! now := new_Date in
  ret [("statusCode", JNum status);
       ("timestamp", JStr (toISOString now));
       ("path", JStr (url request));
       ("message", message);
       ("details", details)].

Definition build500Error (exception : Exception) (responseBody : JsObject)
  : M JsObject :=
  let! errorId := generateErrorId in
  do! logger_error_id errorId exception
        "Unexpected exception thrown" "ExceptionFilter" in
  ret (obj_set "errorId" (JStr errorId) responseBody).

Definition buildResponseBody (status : Z) (request : Request)
    (message details : JsValue) (exception : Exception) : M JsObject :=
  let! responseBody := buildBaseResponseBody status request message details in
  if negb (status =? HttpStatus.INTERNAL_SERVER_ERROR) then
    ret (if typeof_object message
         then spread responseBody message
         else responseBody)
  else build500Error exception responseBody.

Definition catch_ (exception : Exception) (request : Request) : M Reply :=
  let md := getResponseMetadata exception in
  let! responseBody :=
    buildResponseBody (status md) request (message md) (details md)
                      exception in
  ret {| reply_status := status md; reply_body := responseBody |}.

End AllExceptionsFilter.

(** ** The record store

    [PrismaService] and the database schema (src/modules/prisma,
    prisma/schema.prisma) are not among the sources; what the services need
    of them is modelled here from the specification's RecordStore: read,
    create and update by id, each call atomic on its own, either applied in
    full or rejected without any effect. *)
Module PrismaService.

(** Modelled from the spec: the store's side of a call (PrismaService, not
    among the sources). The next entry of the fault script decides whether
    the store answers the call or rejects it: a lost connection, a time-out,
    a constraint of the schema. *)
Definition next_fault : M (option PrismaError) :=
  fun w =>
    match faults w with
    | [] => (Returned None, w)
    | f :: fs => (Returned f, with_faults fs w)
    end.

(** Modelled from the spec: one call to the store (PrismaService, not among
    the sources), atomic on its own: rejected without any effect, or applied
    in full. *)
Definition store_call {A} (op : M A) : M A :=
  let! f := next_fault in
  match f with
  | Some e => throw (rejection e)
  | None => op
  end.

Record AuditCreateInput : Type := {
  id : string;
  reportId : string;
  audited : bool;
  auditorId : string;
  comments : option string
}.

Definition P2002 (target : list string) : PrismaError :=
  KnownRequestError "P2002" (Some [("target", JArr (List.map JStr target))]).

Definition P2003 (field_name : string) : PrismaError :=
  KnownRequestError "P2003" (Some [("field_name", JStr field_name)]).

Definition P2025 (cause : string) : PrismaError :=
  KnownRequestError "P2025" (Some [("cause", JStr cause)]).

(** Modelled from the spec: [prisma.recyclingReport.findUnique({ where: {
    id } })] (PrismaService, not among the sources): the row with that id,
    or [null]. *)
Definition recyclingReport_findUnique (id : string)
  : M (option RecyclingReport.t) :=
  store_call (fun w => (Returned (reports w !! id), w)).

(** Modelled from the spec: [prisma.audit.create({ data })] (PrismaService,
    not among the sources): adds the row and returns it, with both dates set
    to now; rejected with P2002 when the id is taken and with P2003 when the
    report that [reportId] refers to is not there. *)
Definition audit_create (data : AuditCreateInput) : M Audit.t :=
  store_call (fun w =>
    match audits w !! id data with
    | Some _ => (Thrown (rejection (P2002 ["id"])), w)
    | None =>
        match reports w !! reportId data with
        | None =>
            (Thrown (rejection (P2003 "Audit_reportId_fkey (index)")), w)
        | Some _ =>
            let now := clock w (ticks w) in
            let row :=
              {| Audit.id := id data;
                 Audit.reportId := reportId data;
                 Audit.audited := audited data;
                 Audit.auditorId := auditorId data;
                 Audit.comments := comments data;
                 Audit.createdAt := now;
                 Audit.updatedAt := now |} in
            (Returned row,
             with_ticks (S (ticks w))
               (with_db (reports w) (<[id data := row]> (audits w)) w))
        end
    end).

(** Modelled from the spec: [prisma.recyclingReport.update({ where: { id },
    data: { audited } })] (PrismaService, not among the sources): sets the
    flag of the row with that id and returns the row; rejected with P2025
    when there is no such row. *)
Definition recyclingReport_update (id : string) (audited : bool)
  : M RecyclingReport.t :=
  store_call (fun w =>
    match reports w !! id with
    | None => (Thrown (rejection (P2025 "Record to update not found.")), w)
    | Some r =>
        let r' := RecyclingReport.set_audited audited r in
        (Returned r', with_db (<[id := r']> (reports w)) (audits w) w)
    end).

(** Modelled from the spec: [prisma.audit.findUnique({ where: { id } })]
    (PrismaService, not among the sources): the row with that id, or
    [null]. *)
Definition audit_findUnique (id : string) : M (option Audit.t) :=
  store_call (fun w => (Returned (audits w !! id), w)).

(** Modelled from the spec: [prisma.audit.findUniqueOrThrow({ where: { id }
    })] (PrismaService, not among the sources): the row with that id;
    rejected with P2025 when there is none. *)
Definition audit_findUniqueOrThrow (id : string) : M Audit.t :=
  store_call (fun w =>
    match audits w !! id with
    | Some a => (Returned a, w)
    | None => (Thrown (rejection (P2025 "No Audit found")), w)
    end).

(** Modelled from the spec: [prisma.audit.findMany()] (PrismaService, not
    among the sources): all the rows of the table. *)
Definition audit_findMany : M (list Audit.t) :=
  store_call (fun w => (Returned (List.map snd (map_to_list (audits w))), w)).

(** Modelled from the spec: [prisma.audit.update({ where: { id }, data })]
    (PrismaService, not among the sources): sets the two columns of the row
    with that id and the date of its last update, and returns the row;
    rejected with P2025 when there is no such row. *)
Definition audit_update (id : string) (data : UpdateAuditDto.t)
  : M Audit.t :=
  store_call (fun w =>
    match audits w !! id with
    | None => (Thrown (rejection (P2025 "Record to update not found.")), w)
    | Some a =>
        let row :=
          {| Audit.id := Audit.id a;
             Audit.reportId := Audit.reportId a;
             Audit.audited := UpdateAuditDto.audited data;
             Audit.auditorId := Audit.auditorId a;
             Audit.comments := UpdateAuditDto.comments data;
             Audit.createdAt := Audit.createdAt a;
             Audit.updatedAt := clock w (ticks w) |} in
        (Returned row,
         with_ticks (S (ticks w))
           (with_db (reports w) (<[id := row]> (audits w)) w))
    end).

(** Modelled from the spec: [prisma.audit.delete({ where: { id } })]
    (PrismaService, not among the sources): removes the row with that id and
    returns it; rejected with P2025 when there is no such row. *)
Definition audit_delete (id : string) : M Audit.t :=
  store_call (fun w =>
    match audits w !! id with
    | None => (Thrown (rejection (P2025 "Record to delete does not exist.")), w)
    | Some a => (Returned a, with_db (reports w) (delete id (audits w)) w)
    end).

End PrismaService.

(** ** audit.service.ts *)

Record CreateAuditDto : Type := {
  reportId : string;
  audited : bool;
  auditorId : string;
  comments : option string
}.

(** *** [AuditService], the version with one helper per step *)
Module AuditService_A.

Definition ensureReportExists (reportId : string) : M unit :=
  let! report := PrismaService.recyclingReport_findUnique reportId in
  match report with
  | None =>
      throw (NotFoundException
        "Audit creation failed because there is no valid report with this ID.")
  | Some _ => ret tt
  end.

Definition createAuditRecord (reportId : string) (audited : bool)
    (auditorId : string) (comments : option string) : M Audit.t :=
  let! auditId := ulid in
  try_catch
    (PrismaService.audit_create
       {| PrismaService.id := auditId;
          PrismaService.reportId := reportId;
          PrismaService.audited := audited;
          PrismaService.auditorId := auditorId;
          PrismaService.comments := comments |})
    (fun error =>
       throw (BadRequestException
         "Audit creation failed due to an issue while saving the audit record."))
.

Definition markReportAsAudited (reportId : string) (audited : bool)
  : M unit :=
  try_catch
    (let! updated := PrismaService.recyclingReport_update reportId audited in
     ret tt)
    (fun error =>
       throw (InternalServerErrorException
         "Audit was created, but marking the report as audited failed.")).

Definition createAudit (createAuditDto : CreateAuditDto) : M Audit.t :=
  let reportId := reportId createAuditDto in
  let audited := audited createAuditDto in
  let auditorId := auditorId createAuditDto in
  let comments := comments createAuditDto in
  do! logger_log "Starting audit creation"
                 (Some "AuditService - createAudit") in
  do! ensureReportExists reportId in
  let! audit := createAuditRecord reportId audited auditorId comments in
  do! markReportAsAudited reportId audited in
  do! logger_log ("Audit created with ID: " +:+ Audit.id audit)
                 (Some "AuditService - createAudit") in
  ret audit.

Definition findAuditById (id : string) : M Audit.t :=
  do! logger_log ("Retrieving audit with ID: " +:+ id)
                 (Some "FindAuditById") in
  let! audit := PrismaService.audit_findUniqueOrThrow id in
  do! logger_log ("Retrieved audit with ID: " +:+ id)
                 (Some "FindAuditById") in
  ret audit.

Definition findAllAudits : M (list Audit.t) :=
  do! logger_log "Retrieving all audits" (Some "FindAllAudits") in
  let! audits := PrismaService.audit_findMany in
  do! logger_log ("Retrieved " +:+ pretty (length audits) +:+ " audits")
                 (Some "FindAllAudits") in
  ret audits.

Definition updateAudit (id : string) (updateAuditDto : UpdateAuditDto.t)
  : M Audit.t :=
  do! logger_log ("Updating audit with ID: " +:+ id) (Some "UpdateAudit") in
  let! existing := PrismaService.audit_findUniqueOrThrow id in
  let! updatedAudit := PrismaService.audit_update id updateAuditDto in
  do! logger_log ("Audit with ID " +:+ id +:+ " successfully updated")
                 (Some "UpdateAudit") in
  ret updatedAudit.

Definition deleteAudit (id : string) : M Audit.t :=
  do! logger_log ("Deleting audit with ID: " +:+ id) (Some "DeleteAudit") in
  let! existing := PrismaService.audit_findUniqueOrThrow id in
  let! deletedAudit := PrismaService.audit_delete id in
  do! logger_log ("Audit with ID " +:+ id +:+ " successfully deleted")
                 (Some "DeleteAudit") in
  ret deletedAudit.

End AuditService_A.

(** *** [AuditService], the version with one [try]/[catch] around all steps *)
Module AuditService_B.

Definition createAudit (createAuditDto : CreateAuditDto) : M Audit.t :=
  let reportId := reportId createAuditDto in
  let audited := audited createAuditDto in
  let auditorId := auditorId createAuditDto in
  let comments := comments createAuditDto in
  try_catch
    (do! logger_log "Starting audit creation" None in
     let! recyclingReport :=
       PrismaService.recyclingReport_findUnique reportId in
     do! match recyclingReport with
         | None =>
             do! logger_warn
                   ("RecyclingReport with ID " +:+ reportId +:+ " not found.")
                   (Some "CreateAudit") in
             throw (NotFoundException
                      ("RecyclingReport with ID " +:+ reportId
                         +:+ " not found."))
         | Some _ => ret tt
         end in
     let! auditId := ulid in
     let! audit :=
       PrismaService.audit_create
         {| PrismaService.id := auditId;
            PrismaService.reportId := reportId;
            PrismaService.audited := audited;
            PrismaService.auditorId := auditorId;
            PrismaService.comments := comments |} in
     let! updated := PrismaService.recyclingReport_update reportId audited in
     do! logger_log ("Audit created with ID: " +:+ Audit.id audit) None in
     ret audit)
    (fun error =>
       do! logger_error "Error occurred during audit creation" (Some error)
                        (Some "CreateAudit") in
       do! match error with
           | PrismaClientKnownRequestError code meta =>
               do! (if String.eqb code "P2003" then
                      do! logger_warn
                            ("Foreign key constraint failed: "
                               +:+ to_string (meta_prop meta "field_name"))
                            (Some "CreateAudit") in
                      throw (BadRequestException
                               ("Foreign key constraint failed on the field: "
                                  +:+ to_string (meta_prop meta "field_name")))
                    else ret tt) in
               if String.eqb code "P2002" then
                 do! logger_warn
                       ("Unique constraint failed: "
                          +:+ to_string (meta_prop meta "target"))
                       (Some "CreateAudit") in
                 throw (BadRequestException
                          ("Unique constraint failed on the field: "
                             +:+ to_string (meta_prop meta "target")))
               else ret tt
           | _ => ret tt
           end in
       do! match error with
           | HttpException _ _ => throw error
           | _ => ret tt
           end in
       do! logger_error "Unexpected error occurred" (Some error) None in
       throw (InternalServerErrorException "An unexpected error occurred.")).

(** Declared [Promise<Audit | null>]: [None] is [null]. *)
Definition findAuditById (id : string) : M (option Audit.t) :=
  do! logger_log ("Retrieving audit with ID: " +:+ id)
                 (Some "FindAuditById") in
  let! audit := PrismaService.audit_findUnique id in
  match audit with
  | None =>
      do! logger_warn ("Audit with ID " +:+ id +:+ " not found")
                      (Some "FindAuditById") in
      throw (NotFoundException ("Audit with ID " +:+ id +:+ " not found."))
  | Some a =>
      do! logger_log ("Retrieved audit with ID: " +:+ id)
                     (Some "FindAuditById") in
      ret (Some a)
  end.

Definition findAllAudits : M (list Audit.t) :=
  do! logger_log "Retrieving all audits" (Some "FindAllAudits") in
  let! audits := PrismaService.audit_findMany in
  do! logger_log ("Retrieved " +:+ pretty (length audits) +:+ " audits")
                 (Some "FindAllAudits") in
  ret audits.

Definition updateAudit (id : string) (updateAuditDto : UpdateAuditDto.t)
  : M Audit.t :=
  do! logger_log ("Updating audit with ID: " +:+ id) (Some "UpdateAudit") in
  let! existingAudit := PrismaService.audit_findUnique id in
  do! match existingAudit with
      | None =>
          do! logger_warn ("Audit with ID " +:+ id +:+ " not found")
                          (Some "UpdateAudit") in
          throw (NotFoundException
                   ("Audit with ID " +:+ id +:+ " not found."))
      | Some _ => ret tt
      end in
  let! updatedAudit := PrismaService.audit_update id updateAuditDto in
  do! logger_log ("Audit with ID " +:+ id +:+ " successfully updated")
                 (Some "UpdateAudit") in
  ret updatedAudit.

Definition deleteAudit (id : string) : M Audit.t :=
  do! logger_log ("Deleting audit with ID: " +:+ id) (Some "DeleteAudit") in
  let! audit := PrismaService.audit_findUnique id in
  do! match audit with
      | None =>
          do! logger_warn ("Audit with ID " +:+ id +:+ " not found")
                          (Some "DeleteAudit") in
          throw (NotFoundException
                   ("Audit with ID " +:+ id +:+ " not found."))
      | Some _ => ret tt
      end in
  let! deletedAudit := PrismaService.audit_delete id in
  do! logger_log ("Audit with ID " +:+ id +:+ " successfully deleted")
                 (Some "DeleteAudit") in
  ret deletedAudit.

End AuditService_B.

(** ** audit.controller.ts

    The version of [AuditController] whose [findOne] checks the audit it
    gets, on top of the version of the service that declares
    [Audit | null]. *)
Module AuditController.

Definition findAll : M (list Audit.t) :=
  do! logger_log "Retrieving all audits" (Some "FindAllAudits") in
  let! audits := AuditService_B.findAllAudits in
  do! logger_log ("Retrieved " +:+ pretty (length audits) +:+ " audits")
                 (Some "FindAllAudits") in
  ret audits.

Definition findOne (id : string) : M Audit.t :=
  do! logger_log ("Retrieving audit with ID: " +:+ id)
                 (Some "FindAuditById") in
  let! audit := AuditService_B.findAuditById id in
  match audit with
  | None =>
      do! logger_warn ("Audit with ID " +:+ id +:+ " not found")
                      (Some "FindAuditById") in
      throw (NotFoundException ("Audit with ID " +:+ id +:+ " not found."))
  | Some a =>
      do! logger_log ("Retrieved audit with ID: " +:+ id)
                     (Some "FindAuditById") in
      ret a
  end.

(** [@Body(new ZodValidationPipe(UpdateAuditSchema))]: the body goes through
    the pipe before the handler runs. *)
Definition update (id : string) (body : JsValue) : M Audit.t :=
  match ZodValidationPipe.transform (ZodTypes.parse UpdateAuditSchema) body
  with
  | Thrown e => throw e
  | Returned parsed =>
      let updateAuditDto := UpdateAuditDto_of_js parsed in
      do! logger_log ("Updating audit with ID: " +:+ id)
                     (Some "UpdateAudit") in
      let! audit := AuditService_B.updateAudit id updateAuditDto in
      do! logger_log ("Audit with ID " +:+ id +:+ " successfully updated")
                     (Some "UpdateAudit") in
      ret audit
  end.

Definition remove (id : string) : M Audit.t :=
  do! logger_log ("Deleting audit with ID: " +:+ id) (Some "DeleteAudit") in
  let! audit := AuditService_B.deleteAudit id in
  do! logger_log ("Audit with ID " +:+ id +:+ " successfully deleted")
                 (Some "DeleteAudit") in
  ret audit.

End AuditController.

(** ** main.ts

    [app.useGlobalFilters(new AllExceptionsFilter(logger))]: what a handler
    throws, the filter answers. *)
Definition dispatch {A} (handler : M A) (request : AllExceptionsFilter.Request)
  : M (A + AllExceptionsFilter.Reply) :=
  fun w =>
    match handler w with
    | (Returned a, w') => (Returned (inl a), w')
    | (Thrown e, w') =>
        match AllExceptionsFilter.catch_ e request w' with
        | (Returned reply, w'') => (Returned (inr reply), w'')
        | (Thrown e', w'') => (Thrown e', w'')
        end
    end.


(** * The vocabulary of the properties *)

(** ** Envelopes *)
Section EnvelopeVocabulary.

Import AllExceptionsFilter.

(** Two objects with the same keys in the same order, and the same values
    except perhaps under the keys in [K]. *)
Definition agree_but (K : list string) (o1 o2 : JsObject) : Prop :=
  Forall2 (fun a b => fst a = fst b /\ (fst a ∉ K -> snd a = snd b)) o1 o2.

(** The envelope before anything is merged into it or added to it. *)
Definition base_body (w : World) (request : Request) (md : ResponseMetadata)
  : JsObject :=
  [("statusCode", JNum (status md));
   ("timestamp", JStr (toISOString (clock w (ticks w))));
   ("path", JStr (url request));
   ("message", message md);
   ("details", details md)].

(** The world after a failure was answered with status 500: one date made,
    one ULID drawn, one record logged at error level. *)
Definition after_500 (exception : Exception) (w : World) : World :=
  with_logged
    (logged w ++ [LogErrorId (ulid_source w (ulids_drawn w)) exception
                    "Unexpected exception thrown" "ExceptionFilter"])
    (with_ulids_drawn (S (ulids_drawn w)) (with_ticks (S (ticks w)) w)).

(** The fields of an envelope other than the three that come from the
    request and from the world ([timestamp], [path]) or that the responder
    draws itself ([errorId]). *)
Definition volatile_keys : list string := ["timestamp"; "path"; "errorId"].

Definition stable_part (o : JsObject) : JsObject :=
  List.filter
    (fun kv => negb (existsb (String.eqb (fst kv)) volatile_keys)) o.

(** An issue about a field: its path leads somewhere. *)
Definition field_issue (i : Zod.ZodIssue) : Prop :=
  Zod.path i <> [] /\ Zod.path i <> [Zod.Key ""].

(** [entry.k] for an entry of [details] or of [message.errors]. *)
Definition entry_prop (k : string) (entry : JsValue) : JsValue :=
  match entry with
  | JObj o => prop k o
  | _ => JUndefined
  end.

End EnvelopeVocabulary.

(** ** Runs of the workflow *)

(** The fault script lets the next [n] calls to the store through. *)
Fixpoint answers (n : nat) (fs : list (option PrismaError)) : bool :=
  match n, fs with
  | O, _ => true
  | S _, [] => true
  | S n', None :: fs' => answers n' fs'
  | S _, Some _ :: _ => false
  end.

(** The row that step 2 creates for a request in a world. *)
Definition new_audit (dto : CreateAuditDto) (w : World) : Audit.t :=
  {| Audit.id := ulid_source w (ulids_drawn w);
     Audit.reportId := reportId dto;
     Audit.audited := audited dto;
     Audit.auditorId := auditorId dto;
     Audit.comments := comments dto;
     Audit.createdAt := clock w (ticks w);
     Audit.updatedAt := clock w (ticks w) |}.

(** What the [catch] block of version B throws for a rejection by the
    store. *)
Definition rethrown_B (e : PrismaError) : Exception :=
  match e with
  | KnownRequestError code meta =>
      if String.eqb code "P2003" then
        BadRequestException
          ("Foreign key constraint failed on the field: "
             +:+ to_string (meta_prop meta "field_name"))
      else if String.eqb code "P2002" then
        BadRequestException
          ("Unique constraint failed on the field: "
             +:+ to_string (meta_prop meta "target"))
      else InternalServerErrorException "An unexpected error occurred."
  | UnknownRequestError _ =>
      InternalServerErrorException "An unexpected error occurred."
  end.

(** The failure with which version A reports that step 3 failed. *)
Definition flag_update_failed : Exception :=
  InternalServerErrorException
    "Audit was created, but marking the report as audited failed.".

(** The [Audit] table is keyed by the id of its rows. *)
Definition keyed_by_id (w : World) : Prop :=
  forall k a, audits w !! k = Some a -> Audit.id a = k.

(** ** A sample world

    One report ["r-1"], not yet audited, no audit, a store that answers every
    call, used to run the code on concrete inputs. *)
Module Sample.

Definition epoch : Date :=
  {| epoch_ms := 0; toISOString := "1970-01-01T00:00:00.000Z" |}.

Definition report : RecyclingReport.t :=
  {| RecyclingReport.id := "r-1";
     RecyclingReport.audited := false;
     RecyclingReport.columns := [("submittedBy", JStr "user789")] |}.

Definition world : World :=
  {| reports := {["r-1" := report]};
     audits := ∅;
     faults := [];
     ulid_source := fun n => "01J" +:+ pretty n;
     ulids_drawn := 0;
     clock := fun _ => epoch;
     ticks := 0;
     logged := [] |}.

Definition dto : CreateAuditDto :=
  {| reportId := "r-1"; audited := true; auditorId := "a-1";
     comments := None |}.

Definition request : AllExceptionsFilter.Request :=
  {| AllExceptionsFilter.url := "/v1/audits" |}.

End Sample.

(** The sample world after one audit was created in it. *)
Definition audited_world : World :=
  snd (AuditService_A.createAudit Sample.dto Sample.world).

Definition sample_issues : list Zod.ZodIssue :=
  [ {| Zod.message := "Required"; Zod.path := [Zod.Key "reportId"] |};
    {| Zod.message := "Expected boolean, received string";
       Zod.path := [Zod.Key "items"; Zod.Index 2; Zod.Key "audited"] |} ].

(** ** More vocabulary: envelopes, edits of an audit *)

(** The five fields that [buildBaseResponseBody] gives every envelope. *)
Definition base_keys : list string :=
  ["statusCode"; "timestamp"; "path"; "message"; "details"].

(** No property of the object is named by an index from [n] on. *)
Definition no_index_from (n : N) (o : JsObject) : Prop :=
  forall m : N, (n <= m)%N -> has_key (pretty m) o = false.

(** The first character of a string is a decimal digit. *)
Definition starts_with_digit (s : string) : Prop :=
  match s with
  | EmptyString => False
  | String c _ => exists d : N, (d < 10)%N /\ c = pretty_N_char d
  end.

(** The row of an audit after an update with [dto] in the world [w]. *)
Definition updated_audit (a : Audit.t) (dto : UpdateAuditDto.t) (w : World)
  : Audit.t :=
  {| Audit.id := Audit.id a;
     Audit.reportId := Audit.reportId a;
     Audit.audited := UpdateAuditDto.audited dto;
     Audit.auditorId := Audit.auditorId a;
     Audit.comments := UpdateAuditDto.comments dto;
     Audit.createdAt := Audit.createdAt a;
     Audit.updatedAt := clock w (ticks w) |}.

(** The failure with which version B and the controller report an audit
    that is not there. *)
Definition audit_not_found (id : string) : Exception :=
  NotFoundException ("Audit with ID " +:+ id +:+ " not found.").

(** The paths at which [UpdateAuditSchema] can raise an issue. *)
Definition update_issue_paths : list (list Zod.PathSeg) :=
  [[]; [Zod.Key "audited"]; [Zod.Key "comments"]].

(** The warnings among the records of a log. *)
Definition warnings (l : list LogEntry) : list LogEntry :=
  List.filter (fun e => match e with LogWarn _ _ => true | _ => false end) l.

(** The envelope of a 404 for an audit that is not there. *)
Definition audit_not_found_reply (id : string)
    (request : AllExceptionsFilter.Request) (w : World)
  : AllExceptionsFilter.Reply :=
  {| AllExceptionsFilter.reply_status := 404;
     AllExceptionsFilter.reply_body :=
       [("statusCode", JNum 404);
        ("timestamp", JStr (toISOString (clock w (ticks w))));
        ("path", JStr (AllExceptionsFilter.url request));
        ("message", JStr ("Audit with ID " +:+ id +:+ " not found."));
        ("details", JNull);
        ("error", JStr "Not Found")] |}.

(** ** Tactics *)

(** Unfold the services down to the store and the monad. *)
Ltac unfold_service :=
  unfold AuditService_A.createAudit, AuditService_A.ensureReportExists,
    AuditService_A.createAuditRecord, AuditService_A.markReportAsAudited,
    AuditService_A.findAuditById,
    AuditService_B.createAudit, AuditService_B.findAuditById,
    PrismaService.recyclingReport_findUnique, PrismaService.audit_create,
    PrismaService.recyclingReport_update, PrismaService.audit_findUnique,
    PrismaService.audit_findUniqueOrThrow,
    PrismaService.store_call, PrismaService.next_fault,
    logger_log, logger_warn, logger_error, ulid,
    bind, ret, throw, try_catch.

(** Close a case whose outcome is not the one assumed. *)
Ltac other_outcome :=
  let H := fresh "H" in
  intros H; apply (f_equal fst) in H; cbn in H; discriminate H.

(** Case analysis on what a run meets: the fault script, the two tables,
    the error code. *)
Ltac crunch :=
  repeat first
    [ progress cbn
    | match goal with
      | H : ?t = _ |- context [match ?t with _ => _ end] => rewrite H
      | |- context [match ?t with _ => _ end] => is_var t; destruct t
      | |- context [rejection ?e] => is_var e; destruct e
      | |- context [match ?m !! ?k with _ => _ end] =>
          destruct (m !! k) eqn:?
      | |- context [if String.eqb ?a ?b then _ else _] =>
          destruct (String.eqb a b) eqn:?
      end ].

(** Unfold the other operations of the services and the controller. *)
Ltac unfold_crud :=
  unfold AuditController.findAll, AuditController.findOne,
    AuditController.update, AuditController.remove,
    AuditService_A.findAllAudits, AuditService_A.updateAudit,
    AuditService_A.deleteAudit,
    AuditService_B.findAllAudits, AuditService_B.updateAudit,
    AuditService_B.deleteAudit,
    PrismaService.audit_findMany, PrismaService.audit_update,
    PrismaService.audit_delete;
  unfold_service.

(** * Properties *)

(** ** Objects *)
Section JsFacts.

Lemma has_key_obj_set (k k' : string) (v : JsValue) (o : JsObject) :
  has_key k (obj_set k' v o) = String.eqb k' k || has_key k o.
Proof.
  unfold has_key.
  induction o as [|[k0 v0] o IH]; simpl.
  - destruct (String.eqb k' k); reflexivity.
  - destruct (String.eqb k0 k') eqn:E0; simpl.
    + apply String.eqb_eq in E0. subst k0.
      destruct (String.eqb k' k); reflexivity.
    + destruct (String.eqb k0 k) eqn:E1; simpl.
      * destruct (String.eqb k' k); reflexivity.
      * exact IH.
Qed.

Lemma has_key_assign (k : string) (source target : JsObject) :
  has_key k (assign target source) = has_key k target || has_key k source.
Proof.
  unfold assign.
  revert target.
  induction source as [|[k0 v0] source IH]; intros target; simpl.
  - destruct (has_key k target); reflexivity.
  - rewrite IH, has_key_obj_set. cbn [fst snd].
    replace (has_key k ((k0, v0) :: source))
      with (String.eqb k0 k || has_key k source)
      by (unfold has_key; simpl; destruct (String.eqb k0 k); reflexivity).
    generalize (has_key k target) (has_key k source) (String.eqb k0 k).
    intros [] [] []; reflexivity.
Qed.

Lemma agree_but_obj_set K k v o1 o2 :
  agree_but K o1 o2 -> agree_but K (obj_set k v o1) (obj_set k v o2).
Proof.
  induction 1 as [|[k1 v1] [k2 v2] o1 o2 [Hk Hv] Hrest IH]; simpl in *.
  - repeat constructor.
  - subst k2. destruct (String.eqb k1 k).
    + constructor; [split; [reflexivity | intros _; reflexivity] | exact Hrest].
    + constructor; [split; [reflexivity | exact Hv] | exact IH].
Qed.

Lemma agree_but_assign K source o1 o2 :
  agree_but K o1 o2 -> agree_but K (assign o1 source) (assign o2 source).
Proof.
  unfold assign. revert o1 o2.
  induction source as [|[k v] source IH]; intros o1 o2 H; simpl.
  - exact H.
  - apply IH, agree_but_obj_set, H.
Qed.

Lemma agree_but_obj_get K k o1 o2 :
  agree_but K o1 o2 -> k ∉ K -> obj_get k o1 = obj_get k o2.
Proof.
  intros H Hk.
  induction H as [|[k1 v1] [k2 v2] o1 o2 [Hk12 Hv] Hrest IH]; simpl in *.
  - reflexivity.
  - subst k2. destruct (String.eqb k1 k) eqn:E.
    + apply String.eqb_eq in E. subst k1. now rewrite (Hv Hk).
    + exact IH.
Qed.

End JsFacts.

(** ** The error responder *)
Section Responder.

Import AllExceptionsFilter.

(** [catch] never throws; this is what it sends and what it leaves behind. *)
Lemma catch_run (exception : Exception) (request : Request) (w : World) :
  catch_ exception request w =
    let md := getResponseMetadata exception in
    if status md =? HttpStatus.INTERNAL_SERVER_ERROR then
      (Returned
         {| reply_status := status md;
            reply_body :=
              (base_body w request md
                 ++ [("errorId", JStr (ulid_source w (ulids_drawn w)))])%list
         |},
       after_500 exception w)
    else
      (Returned
         {| reply_status := status md;
            reply_body :=
              if typeof_object (message md)
              then spread (base_body w request md) (message md)
              else base_body w request md |},
       with_ticks (S (ticks w)) w).
Proof.
  unfold catch_, buildResponseBody, buildBaseResponseBody, build500Error,
    generateErrorId, logger_error_id, bind, ret, new_Date, ulid.
  cbn zeta.
  destruct (status (getResponseMetadata exception)
              =? HttpStatus.INTERNAL_SERVER_ERROR); reflexivity.
Qed.

Lemma base_body_agree w1 w2 request1 request2 md :
  agree_but ["timestamp"; "path"; "errorId"]
            (base_body w1 request1 md) (base_body w2 request2 md).
Proof.
  unfold agree_but, base_body.
  repeat (constructor; [split; [reflexivity | cbn [fst snd]; intros Hk] |]);
    try reflexivity; try constructor.
  all: exfalso; apply Hk; set_solver.
Qed.

Lemma agree_but_snoc K k v1 v2 o1 o2 :
  agree_but K o1 o2 -> k ∈ K ->
  agree_but K (o1 ++ [(k, v1)])%list (o2 ++ [(k, v2)])%list.
Proof.
  intros H Hk. apply Forall2_app; [exact H |].
  constructor; [| constructor].
  split; [reflexivity | intros Hn; contradiction].
Qed.

(** Which failures are answered with status 500. *)
Lemma status_500_iff (exception : Exception) :
  status (getResponseMetadata exception) = 500 <->
  (exists text, exception = OtherError text) \/
  (exists cls response,
      exception = HttpException cls response /\ getStatus cls = 500).
Proof.
  split.
  - destruct exception as [errors|code meta|cls response|text]; cbn.
    + discriminate.
    + unfold handlePrismaError.
      destruct (String.eqb code "P2002"); [cbn; discriminate |].
      destruct (String.eqb code "P2003"); [cbn; discriminate |].
      destruct (String.eqb code "P2025"); cbn; discriminate.
    + intros H. right. exists cls, response. split; [reflexivity |].
      destruct cls, response; cbn in H; try discriminate; exact H.
    + intros _. left. now exists text.
  - intros [[text ->]|(cls & response & -> & H)]; [reflexivity |].
    destruct cls, response; cbn in *; try discriminate; try exact H;
      reflexivity.
Qed.

End Responder.

Section ResponderClaims.

Import AllExceptionsFilter.

Lemma existsb_eqb_elem_of (k : string) (K : list string) :
  existsb (String.eqb k) K = false -> k ∉ K.
Proof.
  induction K as [|k0 K IH]; simpl; intros H.
  - apply not_elem_of_nil.
  - apply orb_false_iff in H as [H1 H2].
    apply not_elem_of_cons. split; [| exact (IH H2)].
    intros ->. rewrite String.eqb_refl in H1. discriminate.
Qed.

Lemma agree_but_stable_part o1 o2 :
  agree_but volatile_keys o1 o2 -> stable_part o1 = stable_part o2.
Proof.
  unfold stable_part.
  induction 1 as [|[k1 v1] [k2 v2] o1 o2 [Hk Hv] _ IH]; [reflexivity |].
  cbn [fst snd] in Hk, Hv. subst k2.
  cbn [List.filter fst].
  destruct (existsb (String.eqb k1) volatile_keys) eqn:E; cbn [negb].
  - exact IH.
  - rewrite (Hv (existsb_eqb_elem_of _ _ E)). now f_equal.
Qed.

(** The responder always answers, with the status of the classification. *)
Lemma catch_returns (exception : Exception) (request : Request) (w : World) :
  exists r : Reply,
    fst (catch_ exception request w) = Returned r /\
    reply_status r = status (getResponseMetadata exception).
Proof.
  rewrite catch_run. cbn zeta.
  destruct (status (getResponseMetadata exception)
              =? HttpStatus.INTERNAL_SERVER_ERROR);
    eexists; split; reflexivity.
Qed.

(** Two answers to one failure differ at most under the volatile keys. *)
Lemma envelopes_agree (exception : Exception) (request1 request2 : Request)
    (w1 w2 : World) (r1 r2 : Reply) :
  fst (catch_ exception request1 w1) = Returned r1 ->
  fst (catch_ exception request2 w2) = Returned r2 ->
  agree_but volatile_keys (reply_body r1) (reply_body r2).
Proof.
  rewrite !catch_run. cbn zeta.
  pose proof (base_body_agree w1 w2 request1 request2
                (getResponseMetadata exception)) as Hbase.
  destruct (status (getResponseMetadata exception)
              =? HttpStatus.INTERNAL_SERVER_ERROR);
    cbn [fst]; intros [= <-] [= <-]; cbn [reply_body].
  - refine (agree_but_snoc volatile_keys "errorId" _ _ _ _ Hbase _).
    unfold volatile_keys. set_solver.
  - destruct (typeof_object (message (getResponseMetadata exception)));
      [apply agree_but_assign |]; exact Hbase.
Qed.

(** C9. Classification is deterministic. Whatever the request and whatever
    the state of the world (clock, id source, log, database), the responder
    answers one failure with one status, the status of
    [getResponseMetadata], and with one envelope up to [timestamp], [path]
    and [errorId]: in particular [statusCode], [message] and [details] are a
    function of the failure alone. *)
Theorem classification_deterministic
    (exception : Exception) (request1 request2 : Request) (w1 w2 : World) :
  exists r1 r2 : Reply,
    fst (catch_ exception request1 w1) = Returned r1 /\
    fst (catch_ exception request2 w2) = Returned r2 /\
    reply_status r1 = status (getResponseMetadata exception) /\
    reply_status r2 = status (getResponseMetadata exception) /\
    stable_part (reply_body r1) = stable_part (reply_body r2).
Proof.
  destruct (catch_returns exception request1 w1) as (r1 & Hrun1 & Hstatus1).
  destruct (catch_returns exception request2 w2) as (r2 & Hrun2 & Hstatus2).
  exists r1, r2. repeat split; try assumption.
  apply agree_but_stable_part.
  exact (envelopes_agree exception request1 request2 w1 w2 r1 r2
           Hrun1 Hrun2).
Qed.

(** The same failure answered twice in a row, the second time in the world
    that the first answer left. *)
Corollary classification_repeatable
    (exception : Exception) (request : Request) (w : World) :
  exists r1 r2 : Reply,
    fst (catch_ exception request w) = Returned r1 /\
    fst (catch_ exception request (snd (catch_ exception request w)))
      = Returned r2 /\
    reply_status r1 = reply_status r2 /\
    stable_part (reply_body r1) = stable_part (reply_body r2).
Proof.
  destruct (catch_returns exception request w) as (r1 & Hrun1 & Hstatus1).
  destruct (catch_returns exception request
              (snd (catch_ exception request w)))
    as (r2 & Hrun2 & Hstatus2).
  exists r1, r2. repeat split; try assumption; [congruence |].
  apply agree_but_stable_part.
  exact (envelopes_agree exception request request w _ r1 r2 Hrun1 Hrun2).
Qed.

(** C2, as the code has it. The responder adds an [errorId], the ULID it
    draws, exactly when the status is 500 (not for the other 5xx statuses);
    on any other status the envelope has an [errorId] field only if the
    failure's own payload, merged into the envelope, has one, and no ULID is
    drawn. *)
Theorem errorId_presence
    (exception : Exception) (request : Request) (w : World) :
  let md := getResponseMetadata exception in
  exists r : Reply,
    fst (catch_ exception request w) = Returned r /\
    reply_status r = status md /\
    has_key "errorId" (reply_body r)
      = (status md =? 500)
        || (typeof_object (message md)
            && has_key "errorId" (own_props (message md))) /\
    (if status md =? 500
     then obj_get "errorId" (reply_body r)
            = Some (JStr (ulid_source w (ulids_drawn w)))
          /\ ulids_drawn (snd (catch_ exception request w))
             = S (ulids_drawn w)
     else ulids_drawn (snd (catch_ exception request w)) = ulids_drawn w).
Proof.
  cbn zeta. rewrite catch_run. cbn zeta.
  change HttpStatus.INTERNAL_SERVER_ERROR with 500.
  destruct (status (getResponseMetadata exception) =? 500).
  - eexists. repeat split.
  - eexists. repeat split. cbn [reply_body fst orb].
    destruct (typeof_object (message (getResponseMetadata exception)));
      [| reflexivity].
    unfold spread. rewrite has_key_assign. reflexivity.
Qed.

(** C2, as the specification has it, fails twice: a 503 thrown as an
    [HttpException] is a 5xx answer without [errorId], and a 404 whose
    payload has an [errorId] field is a 4xx answer with one. *)
Lemma errorId_iff_5xx_counterexample :
  (exists r : Reply,
      fst (catch_ (HttpException (OtherHttpExceptionClass 503)
                                 (RespString "Service Unavailable"))
                  Sample.request Sample.world) = Returned r /\
      reply_status r = 503 /\
      prop "statusCode" (reply_body r) = JNum 503 /\
      has_key "errorId" (reply_body r) = false) /\
  (exists r : Reply,
      fst (catch_ (HttpException NotFoundExceptionClass
                     (RespObject [("message", JStr "Audit not found.");
                                  ("errorId", JStr "01JABC")]))
                  Sample.request Sample.world) = Returned r /\
      reply_status r = 404 /\
      prop "statusCode" (reply_body r) = JNum 404 /\
      has_key "errorId" (reply_body r) = true).
Proof. split; eexists; repeat split. Qed.

(** C3, as the code has it. A failure answered with status 500 gets the
    envelope below: a fresh [errorId], no [details], nothing merged in. Its
    [message] is the fixed generic text for every failure that is not an
    [HttpException], whatever that failure says; for an [HttpException]
    thrown with status 500 it is the exception's own response, passed
    through. *)
Theorem status_500_envelope
    (exception : Exception) (request : Request) (w : World)
    (H500 : status (getResponseMetadata exception) = 500) :
  catch_ exception request w =
    (Returned
       {| reply_status := 500;
          reply_body :=
            [("statusCode", JNum 500);
             ("timestamp", JStr (toISOString (clock w (ticks w))));
             ("path", JStr (url request));
             ("message",
              match exception with
              | HttpException _ response => response_to_js response
              | _ => JStr default_message
              end);
             ("details", JNull);
             ("errorId", JStr (ulid_source w (ulids_drawn w)))] |},
     after_500 exception w).
Proof.
  rewrite catch_run. cbn zeta. rewrite H500. cbn [Z.eqb Pos.eqb].
  change (500 =? HttpStatus.INTERNAL_SERVER_ERROR) with true. cbv iota.
  unfold base_body. rewrite H500.
  apply status_500_iff in H500
    as [[text ->]|(cls & response & -> & Hcls)]; [reflexivity |].
  destruct cls, response; cbn in *; try discriminate; reflexivity.
Qed.

Lemma status_500_envelope_witness :
  catch_ (OtherError "connect ECONNREFUSED 10.0.0.5:5432") Sample.request
         Sample.world =
    (Returned
       {| reply_status := 500;
          reply_body :=
            [("statusCode", JNum 500);
             ("timestamp", JStr "1970-01-01T00:00:00.000Z");
             ("path", JStr "/v1/audits");
             ("message", JStr default_message);
             ("details", JNull);
             ("errorId", JStr (Sample.world.(ulid_source) 0%nat))] |},
     after_500 (OtherError "connect ECONNREFUSED 10.0.0.5:5432")
               Sample.world).
Proof.
  apply (status_500_envelope
           (OtherError "connect ECONNREFUSED 10.0.0.5:5432")
           Sample.request Sample.world).
  reflexivity.
Defined.

(** C3, as the specification has it, fails on the failure that
    [markReportAsAudited] throws on purpose with status 500: it is answered
    with status 500 and with its own text as the message, not with the
    generic one. *)
Lemma explicit_500_counterexample :
  exists r : Reply,
    fst (catch_ (InternalServerErrorException
                   "Audit was created, but marking the report as audited failed.")
                Sample.request Sample.world) = Returned r /\
    reply_status r = 500 /\
    prop "message" (reply_body r)
      = JObj [("message",
               JStr "Audit was created, but marking the report as audited failed.");
              ("error", JStr "Internal Server Error");
              ("statusCode", JNum 500)] /\
    prop "message" (reply_body r) <> JStr default_message.
Proof. eexists. repeat split. discriminate. Qed.

Lemma to_string_field_names (fields : list string) :
  to_string (JArr (List.map JStr fields)) = String.concat "," fields.
Proof.
  cbn [to_string]. f_equal.
  induction fields as [|f fields IH]; [reflexivity |].
  cbn [List.map]. cbv beta iota. f_equal. exact IH.
Qed.

(** C4, as the code has it. A uniqueness violation (Prisma code P2002) is
    classified with status 400 and the message
    "Unique constraint failed on the field: " followed by the violated
    target, the field names separated by commas; the envelope carries both
    and no [errorId]. *)
Theorem unique_violation_classified
    (meta : option JsObject) (fields : list string) :
  getResponseMetadata (PrismaClientKnownRequestError "P2002" meta) =
    {| status := 400;
       message :=
         JStr ("Unique constraint failed on the field: "
                 +:+ to_string (meta_prop meta "target"));
       details := JNull |} /\
  message (getResponseMetadata (rejection (PrismaService.P2002 fields))) =
    JStr ("Unique constraint failed on the field: "
            +:+ String.concat "," fields) /\
  forall request w,
    fst (catch_ (rejection (PrismaService.P2002 fields)) request w) =
      Returned
        {| reply_status := 400;
           reply_body :=
             [("statusCode", JNum 400);
              ("timestamp", JStr (toISOString (clock w (ticks w))));
              ("path", JStr (url request));
              ("message",
               JStr ("Unique constraint failed on the field: "
                       +:+ String.concat "," fields));
              ("details", JNull)] |}.
Proof.
  split; [reflexivity |].
  assert (Hmsg :
    message (getResponseMetadata (rejection (PrismaService.P2002 fields))) =
    JStr ("Unique constraint failed on the field: "
            +:+ String.concat "," fields)).
  { cbn. unfold prop. cbn. do 2 f_equal.
    apply (to_string_field_names fields). }
  split; [exact Hmsg |].
  intros request w. rewrite catch_run. cbn zeta.
  unfold base_body. rewrite Hmsg. reflexivity.
Qed.

(** C4, as the specification has it, fails: the duplicate
    (auditorId, reportId) of the service's own test is answered with 400, not
    with 409. *)
Lemma unique_violation_409_counterexample :
  getResponseMetadata
    (rejection (PrismaService.P2002 ["auditorId"; "reportId"])) =
    {| status := 400;
       message :=
         JStr "Unique constraint failed on the field: auditorId,reportId";
       details := JNull |} /\
  status (getResponseMetadata
            (rejection (PrismaService.P2002 ["auditorId"; "reportId"])))
    <> 409.
Proof. split; [reflexivity | discriminate]. Qed.

End ResponderClaims.

(** ** Validation failures *)
Section ValidationClaims.

Import AllExceptionsFilter.

Lemma pretty_N_go_nonempty (x : N) (s : string) :
  s <> "" -> pretty_N_go x s <> "".
Proof.
  revert s.
  induction x as [x IH] using (well_founded_induction N.lt_wf_0).
  intros s Hs.
  destruct (N.eq_dec x 0%N) as [-> | Hx].
  - now rewrite pretty_N_go_0.
  - rewrite pretty_N_go_step by lia.
    apply IH; [apply N.div_lt; lia | discriminate].
Qed.

Lemma pretty_N_nonempty (x : N) : pretty x <> "".
Proof.
  unfold pretty, pretty_N.
  destruct (decide (x = 0%N)) as [_ | Hx]; [discriminate |].
  rewrite pretty_N_go_step by lia.
  apply pretty_N_go_nonempty. discriminate.
Qed.

Lemma append_empty (a b : string) : a +:+ b = "" -> a = "" /\ b = "".
Proof. destruct a; simpl; [auto | discriminate]. Qed.

(** [join('.')] gives the empty string for no segment at all and for the
    single segment [""], and for nothing else. *)
Lemma join_path_empty (p : list Zod.PathSeg) :
  Zod.join_path p = "" <-> p = [] \/ p = [Zod.Key ""].
Proof.
  unfold Zod.join_path. split.
  - destruct p as [|s [|s' p]]; cbn.
    + auto.
    + destruct s as [k | n]; cbn.
      * intros ->. auto.
      * intros H. now apply pretty_N_nonempty in H.
    + intros H. apply append_empty in H as [_ H]. discriminate.
  - intros [-> | ->]; reflexivity.
Qed.

(** What the filter makes of a [ZodError] that reaches it, and of the
    [BadRequestException] that the pipe makes of a [ZodError]. *)
Lemma zod_error_reply (errors : list Zod.ZodIssue) request w :
  fst (catch_ (ZodError errors) request w) =
    Returned
      {| reply_status := 400;
         reply_body :=
           [("statusCode", JNum 400);
            ("timestamp", JStr (toISOString (clock w (ticks w))));
            ("path", JStr (url request));
            ("message",
             JObj [("errors", JArr (List.map zod_issue_entry errors))]);
            ("details", JNull);
            ("errors", JArr (List.map zod_issue_entry errors))] |}.
Proof. rewrite catch_run. reflexivity. Qed.

Lemma pipe_error_reply (schema : ZodValidationPipe.ZodSchema)
    (value : JsValue) (errors : list Zod.ZodIssue) request w :
  schema value = Thrown (ZodError errors) ->
  exists e,
    ZodValidationPipe.transform schema value = Thrown e /\
    fst (catch_ e request w) =
      Returned
        {| reply_status := 400;
           reply_body :=
             [("statusCode", JNum 400);
              ("timestamp", JStr (toISOString (clock w (ticks w))));
              ("path", JStr (url request));
              ("message", JStr "Validation failed");
              ("details",
               JArr (List.map ZodValidationPipe.issue_detail errors))] |}.
Proof.
  intros Hparse. unfold ZodValidationPipe.transform. rewrite Hparse.
  eexists. split; [reflexivity |].
  rewrite catch_run. reflexivity.
Qed.

(** C8, as the code has it. A validation failure with N issues is answered
    with status 400 and with exactly N entries, the i-th made from the i-th
    issue. Under [message.errors] (a [ZodError] that reaches the filter) the
    entry carries the issue's message and its path, segment by segment, a
    key as a string and an index as a number. Under [details] (a [ZodError]
    caught by the validation pipe) it carries the issue's message and, as
    [field], the segments of its path joined with ".". The path of an entry
    is empty exactly when the issue has no path, and its field is the empty
    string exactly when the issue is not about a field: nothing makes them
    non-empty. *)
Theorem validation_entries
    (errors : list Zod.ZodIssue) (request : Request) (w : World)
    (schema : ZodValidationPipe.ZodSchema) (value : JsValue)
    (Hparse : schema value = Thrown (ZodError errors)) :
  (exists (r : Reply) (entries : list JsValue),
      fst (catch_ (ZodError errors) request w) = Returned r /\
      reply_status r = 400 /\
      entry_prop "errors" (prop "message" (reply_body r)) = JArr entries /\
      length entries = length errors /\
      Forall2
        (fun i entry =>
           entry_prop "message" entry = JStr (Zod.message i) /\
           exists segments : list JsValue,
             entry_prop "path" entry = JArr segments /\
             Forall2
               (fun seg v =>
                  match seg with
                  | Zod.Key s => v = JStr s
                  | Zod.Index n => v = JNum (Z.of_N n)
                  end)
               (Zod.path i) segments /\
             (segments = [] <-> Zod.path i = []))
        errors entries) /\
  (exists (e : Exception) (r : Reply) (entries : list JsValue),
      ZodValidationPipe.transform schema value = Thrown e /\
      fst (catch_ e request w) = Returned r /\
      reply_status r = 400 /\
      prop "message" (reply_body r) = JStr "Validation failed" /\
      prop "details" (reply_body r) = JArr entries /\
      length entries = length errors /\
      Forall2
        (fun i entry =>
           entry_prop "message" entry = JStr (Zod.message i) /\
           exists field : string,
             entry_prop "field" entry = JStr field /\
             field
               = String.concat "."
                   (List.map
                      (fun seg =>
                         match seg with
                         | Zod.Key s => s
                         | Zod.Index n => pretty n
                         end)
                      (Zod.path i)) /\
             (field <> "" <-> field_issue i))
        errors entries).
Proof.
  split.
  - eexists _, (List.map zod_issue_entry errors).
    split; [apply zod_error_reply |].
    repeat split; [apply length_map |].
    clear Hparse.
    induction errors as [|i errors IH]; cbn [List.map];
      [constructor | constructor; [| exact IH]].
    split; [reflexivity |].
    exists (List.map Zod.seg_to_js (Zod.path i)).
    split; [reflexivity |]. split.
    + induction (Zod.path i) as [|[s | n] p IHp]; cbn [List.map];
        constructor; try reflexivity; exact IHp.
    + destruct (Zod.path i); cbn [List.map]; split;
        intros H; try reflexivity; discriminate H.
  - destruct (pipe_error_reply schema value errors request w Hparse)
      as (e & Hthrown & Hreply).
    exists e. eexists _, (List.map ZodValidationPipe.issue_detail errors).
    split; [exact Hthrown |]. split; [exact Hreply |].
    repeat split; [apply length_map |].
    clear Hparse Hthrown Hreply.
    induction errors as [|i errors IH]; cbn [List.map];
      [constructor | constructor; [| exact IH]].
    split; [reflexivity |].
    exists (Zod.join_path (Zod.path i)).
    split; [reflexivity |]. split; [reflexivity |].
    unfold field_issue. split.
    + intros Hne. split; intros Hp; apply Hne, join_path_empty; auto.
    + intros [Hroot Hblank] Hjoin.
      apply join_path_empty in Hjoin as [H | H]; contradiction.
Qed.

Lemma validation_entries_witness :
  exists (e : Exception) (r : Reply),
    ZodValidationPipe.transform (fun _ => Thrown (ZodError sample_issues))
                                JNull = Thrown e /\
    fst (catch_ e Sample.request Sample.world) = Returned r /\
    prop "details" (reply_body r) =
      JArr [JObj [("field", JStr "reportId"); ("message", JStr "Required")];
            JObj [("field", JStr "items.2.audited");
                  ("message", JStr "Expected boolean, received string")]].
Proof.
  destruct (validation_entries sample_issues Sample.request Sample.world
              (fun _ => Thrown (ZodError sample_issues)) JNull eq_refl)
    as [_ (e & r & entries & Ht & Hr & _)].
  exists e, r. split; [exact Ht |]. split; [exact Hr |].
  cbv in Ht. injection Ht as <-. cbv in Hr. injection Hr as <-.
  reflexivity.
Defined.

(** C8, as the specification has it, fails on an issue that is about the
    input as a whole: a body of an update that is not an object. The pipe
    answers it with one entry whose [field] is the empty string, and the
    [ZodError] itself is answered with one entry whose [path] is the empty
    array. *)
Lemma root_issue_counterexample :
  (exists (e : Exception) (r : Reply),
      ZodValidationPipe.transform (ZodTypes.parse UpdateAuditSchema)
                                  (JStr "audited") = Thrown e /\
      fst (catch_ e Sample.request Sample.world) = Returned r /\
      reply_status r = 400 /\
      prop "details" (reply_body r) =
        JArr [JObj [("field", JStr "");
                    ("message", JStr "Expected object, received string")]]) /\
  (exists (errors : list Zod.ZodIssue) (r : Reply),
      ZodTypes.parse UpdateAuditSchema (JStr "audited")
        = Thrown (ZodError errors) /\
      fst (catch_ (ZodError errors) Sample.request Sample.world)
        = Returned r /\
      reply_status r = 400 /\
      entry_prop "errors" (prop "message" (reply_body r)) =
        JArr [JObj [("message", JStr "Expected object, received string");
                    ("path", JArr [])]]).
Proof. split; eexists _, _; repeat split. Qed.

End ValidationClaims.

(** ** The audit-creation workflow *)
Section Workflow.

(** C6. A request for a report that is not in the store: in both versions
    of the workflow the run ends in a failure, no ULID is drawn, the read of
    step 1 is the only call made to the store (neither the creation nor the
    update is called) and the two tables are as they were. When the store
    answers that read, the failure is a [NotFoundException], status 404. *)
Theorem missing_report_halts (dto : CreateAuditDto) (w : World)
    (Hmissing : reports w !! reportId dto = None) :
  let runA := AuditService_A.createAudit dto w in
  let runB := AuditService_B.createAudit dto w in
  ((exists e, fst runA = Thrown e) /\
   reports (snd runA) = reports w /\ audits (snd runA) = audits w /\
   ulids_drawn (snd runA) = ulids_drawn w /\
   faults (snd runA) = drop 1 (faults w)) /\
  ((exists e, fst runB = Thrown e) /\
   reports (snd runB) = reports w /\ audits (snd runB) = audits w /\
   ulids_drawn (snd runB) = ulids_drawn w /\
   faults (snd runB) = drop 1 (faults w)) /\
  (answers 1 (faults w) = true ->
   fst runA =
     Thrown (NotFoundException
       "Audit creation failed because there is no valid report with this ID.")
   /\
   fst runB =
     Thrown (NotFoundException
       ("RecyclingReport with ID " +:+ reportId dto +:+ " not found.")) /\
   forall text,
     AllExceptionsFilter.status
       (AllExceptionsFilter.getResponseMetadata (NotFoundException text))
     = HttpStatus.NOT_FOUND).
Proof.
  destruct w as [rs au fs us un ck tk lg]. cbn in Hmissing. cbn zeta.
  split; [| split].
  - unfold_service. cbn.
    destruct fs as [|[e|] fs]; cbn; rewrite ?Hmissing; cbn; eauto 10.
  - unfold_service. cbn.
    destruct fs as [|[e|] fs]; cbn; rewrite ?Hmissing; cbn;
      [eauto 10 | | eauto 10].
    destruct e as [code meta | text]; cbn; [| eauto 10].
    destruct (String.eqb code "P2003"); cbn; [eauto 10 |].
    destruct (String.eqb code "P2002"); cbn; eauto 10.
  - cbn [faults]. intros Hread. unfold_service. cbn.
    destruct fs as [|[e|] fs]; [| discriminate |]; cbn; rewrite Hmissing;
      repeat split.
Qed.

Lemma missing_report_halts_witness :
  fst (AuditService_A.createAudit
         {| reportId := "r-404"; audited := true; auditorId := "a-1";
            comments := None |} Sample.world) =
    Thrown (NotFoundException
      "Audit creation failed because there is no valid report with this ID.")
  /\
  audits (snd (AuditService_A.createAudit
                 {| reportId := "r-404"; audited := true;
                    auditorId := "a-1"; comments := None |} Sample.world))
    = audits Sample.world.
Proof.
  destruct (missing_report_halts
              {| reportId := "r-404"; audited := true; auditorId := "a-1";
                 comments := None |} Sample.world eq_refl)
    as ((_ & _ & Haudits & _) & _ & Hfound).
  destruct (Hfound eq_refl) as (HA & _).
  split; [exact HA | exact Haudits].
Defined.

(** C7. A request whose report exists, the store answering the three calls
    and the drawn ULID being free: both versions of the workflow return the
    created row, whose [audited] is the request's, and leave the report with
    that same [audited] flag; the row is in the [Audit] table. *)
Theorem audit_created (dto : CreateAuditDto) (w : World)
    (r : RecyclingReport.t)
    (Hreport : reports w !! reportId dto = Some r)
    (Hstore : answers 3 (faults w) = true)
    (Hfresh : audits w !! ulid_source w (ulids_drawn w) = None) :
  let audit := new_audit dto w in
  let r' := RecyclingReport.set_audited (audited dto) r in
  Audit.audited audit = audited dto /\
  RecyclingReport.audited r' = audited dto /\
  (exists wA,
      AuditService_A.createAudit dto w = (Returned audit, wA) /\
      reports wA = <[reportId dto := r']> (reports w) /\
      reports wA !! reportId dto = Some r' /\
      audits wA = <[Audit.id audit := audit]> (audits w)) /\
  (exists wB,
      AuditService_B.createAudit dto w = (Returned audit, wB) /\
      reports wB = <[reportId dto := r']> (reports w) /\
      reports wB !! reportId dto = Some r' /\
      audits wB = <[Audit.id audit := audit]> (audits w)).
Proof.
  destruct w as [rs au fs us un ck tk lg].
  cbn in Hreport, Hstore, Hfresh. cbn zeta.
  split; [reflexivity |]. split; [reflexivity |].
  assert (Hscript : fs = [] \/ fs = [None] \/ fs = [None; None] \/
                    exists rest, fs = None :: None :: None :: rest).
  { destruct fs as [|[e|] [|[e'|] [|[e''|] rest]]]; try discriminate; eauto. }
  split.
  - unfold_service. unfold new_audit. cbn.
    destruct Hscript as [-> | [-> | [-> | [rest ->]]]]; cbn;
      repeat (first [rewrite Hreport | rewrite Hfresh]; cbn);
      eexists; (split; [reflexivity |]); cbn;
      (split; [reflexivity |]); (split; [apply lookup_insert_eq |]);
      reflexivity.
  - unfold_service. unfold new_audit. cbn.
    destruct Hscript as [-> | [-> | [-> | [rest ->]]]]; cbn;
      repeat (first [rewrite Hreport | rewrite Hfresh]; cbn);
      eexists; (split; [reflexivity |]); cbn;
      (split; [reflexivity |]); (split; [apply lookup_insert_eq |]);
      reflexivity.
Qed.

(** X22. Conversely, a run that returns an audit met exactly these
    conditions, and returns the new row: they are what "all steps succeed"
    means. *)
Lemma createAudit_returns (dto : CreateAuditDto) (w w' : World)
    (a : Audit.t) :
  AuditService_A.createAudit dto w = (Returned a, w') \/
  AuditService_B.createAudit dto w = (Returned a, w') ->
  is_Some (reports w !! reportId dto) /\
  answers 3 (faults w) = true /\
  audits w !! ulid_source w (ulids_drawn w) = None /\
  a = new_audit dto w.
Proof.
  destruct w as [rs au fs us un ck tk lg]. unfold new_audit. cbn.
  intros [Hrun | Hrun]; revert Hrun; unfold_service; crunch;
    try other_outcome; intros [= <- _]; auto.
Qed.

Lemma audit_created_witness :
  exists wA,
    AuditService_A.createAudit Sample.dto Sample.world
      = (Returned (new_audit Sample.dto Sample.world), wA) /\
    Audit.audited (new_audit Sample.dto Sample.world) = true /\
    reports wA !! "r-1"
      = Some (RecyclingReport.set_audited true Sample.report).
Proof.
  destruct (audit_created Sample.dto Sample.world Sample.report
              eq_refl eq_refl eq_refl)
    as (Haudited & _ & (wA & Hrun & _ & Hflag & _) & _).
  exists wA. auto.
Defined.

(** How the responder answers what version B rethrows: 400 with the name of
    the constraint for the two codes the [catch] block knows, 500 for
    everything else the store can reject a call with. *)
Lemma rethrown_B_status (e : PrismaError) :
  AllExceptionsFilter.status
    (AllExceptionsFilter.getResponseMetadata (rethrown_B e)) =
  match e with
  | KnownRequestError code _ =>
      if String.eqb code "P2003" || String.eqb code "P2002"
      then 400 else 500
  | UnknownRequestError _ => 500
  end.
Proof.
  destruct e as [code meta | text]; [| reflexivity].
  unfold rethrown_B.
  destruct (String.eqb code "P2003"); [reflexivity |].
  destruct (String.eqb code "P2002"); reflexivity.
Qed.

(** C5, as the code has it. Step 1 passed and the store rejects the
    creation of the audit row with [e]: in both versions nothing further
    runs (the update of step 3 is never called, the rest of the fault script
    is untouched) and the two tables are as they were. Version A reports
    every such failure as the same [BadRequestException] (400); version B
    reports a uniqueness violation (P2002) and a foreign-key violation
    (P2003) as a [BadRequestException] (400) naming the constraint, and
    everything else as an [InternalServerErrorException] (500) with a fixed
    message. *)
Theorem record_creation_failure (dto : CreateAuditDto) (w : World)
    (r : RecyclingReport.t) (e : PrismaError)
    (rest : list (option PrismaError))
    (Hreport : reports w !! reportId dto = Some r)
    (Hscript : faults w = None :: Some e :: rest) :
  (exists wA,
      AuditService_A.createAudit dto w =
        (Thrown (BadRequestException
           "Audit creation failed due to an issue while saving the audit record."),
         wA) /\
      reports wA = reports w /\ audits wA = audits w /\ faults wA = rest) /\
  (exists wB,
      AuditService_B.createAudit dto w = (Thrown (rethrown_B e), wB) /\
      reports wB = reports w /\ audits wB = audits w /\ faults wB = rest) /\
  (forall meta,
      rethrown_B (KnownRequestError "P2002" meta) =
        BadRequestException
          ("Unique constraint failed on the field: "
             +:+ to_string (meta_prop meta "target"))) /\
  (forall meta,
      rethrown_B (KnownRequestError "P2003" meta) =
        BadRequestException
          ("Foreign key constraint failed on the field: "
             +:+ to_string (meta_prop meta "field_name"))) /\
  (forall code meta,
      String.eqb code "P2002" = false -> String.eqb code "P2003" = false ->
      rethrown_B (KnownRequestError code meta) =
        InternalServerErrorException "An unexpected error occurred.") /\
  (forall text,
      rethrown_B (UnknownRequestError text) =
        InternalServerErrorException "An unexpected error occurred.").
Proof.
  destruct w as [rs au fs us un ck tk lg]. cbn in Hreport, Hscript.
  subst fs.
  split; [| split; [| repeat split]].
  - unfold_service. cbn. rewrite Hreport. cbn.
    eexists. split; [reflexivity |]. cbn. auto.
  - unfold_service. cbn. rewrite Hreport. cbn.
    destruct e as [code meta | text]; cbn.
    + destruct (String.eqb code "P2003"); cbn;
        [eexists; split; [reflexivity |]; cbn; auto |].
      destruct (String.eqb code "P2002"); cbn;
        eexists; (split; [reflexivity |]); cbn; auto.
    + eexists. split; [reflexivity |]. cbn. auto.
  - intros code meta H2 H3. unfold rethrown_B. now rewrite H3, H2.
Qed.

Lemma record_creation_failure_witness :
  exists wB,
    AuditService_B.createAudit Sample.dto
      (with_faults
         [None; Some (PrismaService.P2002 ["auditorId"; "reportId"])]
         Sample.world) =
      (Thrown (BadRequestException
         "Unique constraint failed on the field: auditorId,reportId"),
       wB) /\
    reports wB = reports Sample.world /\ audits wB = audits Sample.world.
Proof.
  destruct (record_creation_failure Sample.dto
              (with_faults
                 [None; Some (PrismaService.P2002 ["auditorId"; "reportId"])]
                 Sample.world)
              Sample.report
              (PrismaService.P2002 ["auditorId"; "reportId"]) []
              eq_refl eq_refl)
    as (_ & (wB & Hrun & Hreports & Haudits & _) & _).
  exists wB. auto.
Defined.

(** C5, as the specification has it, fails on version A: a step 2 that
    fails for a reason that is neither a uniqueness nor a foreign-key
    violation is reported with status 400, not 500. *)
Lemma record_creation_other_failure_counterexample :
  fst (AuditService_A.createAudit Sample.dto
         (with_faults [None; Some (UnknownRequestError "Unknown error")]
                      Sample.world)) =
    Thrown (BadRequestException
      "Audit creation failed due to an issue while saving the audit record.")
  /\
  AllExceptionsFilter.status
    (AllExceptionsFilter.getResponseMetadata
       (BadRequestException
          "Audit creation failed due to an issue while saving the audit record."))
    = 400.
Proof. split; reflexivity. Qed.

(** The creation can also fail on its own, when the drawn ULID is already the
    id of an audit: the store rejects it with P2002 on [id], which the two
    versions report as any other rejection of step 2. *)
Lemma record_creation_collision (dto : CreateAuditDto) (w : World)
    (r : RecyclingReport.t) (a : Audit.t)
    (Hreport : reports w !! reportId dto = Some r)
    (Hstore : answers 2 (faults w) = true)
    (Htaken : audits w !! ulid_source w (ulids_drawn w) = Some a) :
  (exists wA,
      AuditService_A.createAudit dto w =
        (Thrown (BadRequestException
           "Audit creation failed due to an issue while saving the audit record."),
         wA) /\
      reports wA = reports w /\ audits wA = audits w) /\
  (exists wB,
      AuditService_B.createAudit dto w =
        (Thrown (BadRequestException
                   "Unique constraint failed on the field: id"), wB) /\
      reports wB = reports w /\ audits wB = audits w).
Proof.
  destruct w as [rs au fs us un ck tk lg].
  cbn in Hreport, Hstore, Htaken.
  assert (Hscript : fs = [] \/ fs = [None] \/
                    exists rest, fs = None :: None :: rest).
  { destruct fs as [|[e|] [|[e'|] rest]]; try discriminate; eauto. }
  split; unfold_service; cbn;
    destruct Hscript as [-> | [-> | [rest ->]]]; cbn;
    repeat (first [rewrite Hreport | rewrite Htaken]; cbn);
    eexists; (split; [reflexivity |]); cbn; auto.
Qed.

(** Version A throws [flag_update_failed] only after it has created the
    audit row: the failure tells that steps 1 and 2 were done and step 3 was
    not. *)
Lemma flag_update_failed_identifies_step_A (dto : CreateAuditDto)
    (w w' : World) :
  AuditService_A.createAudit dto w = (Thrown flag_update_failed, w') ->
  is_Some (reports w !! reportId dto) /\
  audits w' = <[Audit.id (new_audit dto w) := new_audit dto w]> (audits w) /\
  reports w' = reports w.
Proof.
  destruct w as [rs au fs us un ck tk lg].
  unfold_service.
  unfold new_audit, flag_update_failed, InternalServerErrorException,
    BadRequestException, NotFoundException.
  cbn.
  destruct fs as [|[e1|] fs]; cbn.
  2:{ destruct e1; cbn; other_outcome. }
  all: destruct (rs !! reportId dto) as [r|] eqn:Hreport; cbn;
    [| other_outcome].
  - destruct (au !! us un) eqn:Hfresh; cbn; [other_outcome |].
    repeat (rewrite Hreport; cbn). other_outcome.
  - destruct fs as [|[e2|] fs]; cbn; [| other_outcome |].
    + destruct (au !! us un) eqn:Hfresh; cbn; [other_outcome |].
      repeat (rewrite Hreport; cbn). other_outcome.
    + destruct (au !! us un) eqn:Hfresh; cbn; [other_outcome |].
      destruct fs as [|[e3|] fs]; cbn; repeat (rewrite Hreport; cbn);
        try other_outcome.
      intros [= <-]. cbn. auto.
Qed.

(** C1, as the code has it. Steps 1 and 2 succeeded and the store rejects
    the update of the report with [e]: in both versions the audit row
    created in step 2 stays in the [Audit] table (nothing is rolled back)
    and the report keeps its old flag. Version A reports this with
    [flag_update_failed], an [InternalServerErrorException] whose message
    says that the audit was created and that marking the report failed, and
    which it throws in no other situation. Version B reports it through its
    common [catch] block, as it reports a failure of step 2. *)
Theorem flag_update_failure (dto : CreateAuditDto) (w : World)
    (r : RecyclingReport.t) (e : PrismaError)
    (rest : list (option PrismaError))
    (Hreport : reports w !! reportId dto = Some r)
    (Hscript : faults w = None :: None :: Some e :: rest)
    (Hfresh : audits w !! ulid_source w (ulids_drawn w) = None) :
  let audit := new_audit dto w in
  (exists wA,
      AuditService_A.createAudit dto w = (Thrown flag_update_failed, wA) /\
      audits wA = <[Audit.id audit := audit]> (audits w) /\
      audits wA !! Audit.id audit = Some audit /\
      reports wA = reports w /\ faults wA = rest) /\
  (exists wB,
      AuditService_B.createAudit dto w = (Thrown (rethrown_B e), wB) /\
      audits wB = <[Audit.id audit := audit]> (audits w) /\
      audits wB !! Audit.id audit = Some audit /\
      reports wB = reports w /\ faults wB = rest) /\
  (forall dto0 w0 w0',
      AuditService_A.createAudit dto0 w0 = (Thrown flag_update_failed, w0') ->
      audits w0'
        = <[Audit.id (new_audit dto0 w0) := new_audit dto0 w0]> (audits w0)).
Proof.
  cbn zeta. split; [| split].
  - destruct w as [rs au fs us un ck tk lg].
    cbn in Hreport, Hscript, Hfresh. subst fs.
    unfold_service. unfold new_audit. cbn.
    repeat (first [rewrite Hreport | rewrite Hfresh]; cbn).
    eexists. split; [reflexivity |]. cbn.
    split; [reflexivity |]. split; [apply lookup_insert_eq | auto].
  - destruct w as [rs au fs us un ck tk lg].
    cbn in Hreport, Hscript, Hfresh. subst fs.
    unfold_service. unfold new_audit. cbn.
    repeat (first [rewrite Hreport | rewrite Hfresh]; cbn).
    destruct e as [code meta | text]; cbn.
    + destruct (String.eqb code "P2003"); cbn.
      { eexists. split; [reflexivity |]. cbn.
        split; [reflexivity |]. split; [apply lookup_insert_eq | auto]. }
      destruct (String.eqb code "P2002"); cbn;
        eexists; (split; [reflexivity |]); cbn;
        (split; [reflexivity |]); (split; [apply lookup_insert_eq | auto]).
    + eexists. split; [reflexivity |]. cbn.
      split; [reflexivity |]. split; [apply lookup_insert_eq | auto].
  - intros dto0 w0 w0' Hrun.
    apply (flag_update_failed_identifies_step_A dto0 w0 w0' Hrun).
Qed.

Lemma flag_update_failure_witness :
  exists wA,
    AuditService_A.createAudit Sample.dto
      (with_faults [None; None; Some (UnknownRequestError "Unknown error")]
                   Sample.world) =
      (Thrown flag_update_failed, wA) /\
    audits wA !! Sample.world.(ulid_source) 0%nat
      = Some (new_audit Sample.dto Sample.world) /\
    reports wA = reports Sample.world.
Proof.
  destruct (flag_update_failure Sample.dto
              (with_faults
                 [None; None; Some (UnknownRequestError "Unknown error")]
                 Sample.world)
              Sample.report (UnknownRequestError "Unknown error") []
              eq_refl eq_refl eq_refl)
    as ((wA & Hrun & _ & Hkept & Hreports & _) & _).
  exists wA. auto.
Defined.

(** C1, as the specification has it, fails on version B: the failure it
    returns when step 3 fails is the one it returns when step 2 fails, the
    generic 500 that names no step, although only in the first case an audit
    row has been left behind. *)
Lemma flag_update_unnamed_counterexample :
  let step3_fails :=
    with_faults [None; None; Some (UnknownRequestError "Unknown error")]
                Sample.world in
  let step2_fails :=
    with_faults [None; Some (UnknownRequestError "Unknown error")]
                Sample.world in
  fst (AuditService_B.createAudit Sample.dto step3_fails) =
    Thrown (InternalServerErrorException "An unexpected error occurred.") /\
  fst (AuditService_B.createAudit Sample.dto step2_fails) =
    Thrown (InternalServerErrorException "An unexpected error occurred.") /\
  audits (snd (AuditService_B.createAudit Sample.dto step3_fails))
    !! Sample.world.(ulid_source) 0%nat
    = Some (new_audit Sample.dto Sample.world) /\
  audits (snd (AuditService_B.createAudit Sample.dto step2_fails))
    !! Sample.world.(ulid_source) 0%nat
    = None.
Proof. repeat split. Qed.

(** *** The [Audit] table is keyed by the id of its rows *)

Lemma keyed_by_id_insert (w : World) (a : Audit.t)
    (au' : gmap string Audit.t) :
  keyed_by_id w ->
  au' = audits w \/ au' = <[Audit.id a := a]> (audits w) ->
  forall k b, au' !! k = Some b -> Audit.id b = k.
Proof.
  intros Hkeys [-> | ->] k b Hk; [exact (Hkeys k b Hk) |].
  destruct (decide (Audit.id a = k)) as [<- | Hne].
  - rewrite lookup_insert_eq in Hk. now injection Hk as <-.
  - rewrite lookup_insert_ne in Hk by exact Hne. exact (Hkeys k b Hk).
Qed.

(** Whatever happens, a run of the workflow leaves the [Audit] table as it
    was or with the one new row added. *)
Lemma createAudit_A_audits (dto : CreateAuditDto) (w : World) :
  audits (snd (AuditService_A.createAudit dto w)) = audits w \/
  audits (snd (AuditService_A.createAudit dto w))
    = <[Audit.id (new_audit dto w) := new_audit dto w]> (audits w).
Proof.
  destruct w as [rs au fs us un ck tk lg].
  unfold_service. unfold new_audit. crunch; auto.
Qed.

Lemma createAudit_B_audits (dto : CreateAuditDto) (w : World) :
  audits (snd (AuditService_B.createAudit dto w)) = audits w \/
  audits (snd (AuditService_B.createAudit dto w))
    = <[Audit.id (new_audit dto w) := new_audit dto w]> (audits w).
Proof.
  destruct w as [rs au fs us un ck tk lg].
  unfold_service. unfold new_audit. crunch; auto.
Qed.

Lemma createAudit_keeps_keys (dto : CreateAuditDto) (w : World) :
  keyed_by_id w ->
  keyed_by_id (snd (AuditService_A.createAudit dto w)) /\
  keyed_by_id (snd (AuditService_B.createAudit dto w)).
Proof.
  intros Hkeys. split.
  - exact (keyed_by_id_insert w (new_audit dto w) _ Hkeys
             (createAudit_A_audits dto w)).
  - exact (keyed_by_id_insert w (new_audit dto w) _ Hkeys
             (createAudit_B_audits dto w)).
Qed.

Lemma sample_world_keyed : keyed_by_id Sample.world.
Proof. intros k a Hk. cbn in Hk. now rewrite lookup_empty in Hk. Qed.

(** ** Reading one audit *)

Lemma audited_world_keyed : keyed_by_id audited_world.
Proof. apply createAudit_keeps_keys, sample_world_keyed. Qed.

(** C10. [findAuditById] never returns [null], whatever the id and the
    world, although version B declares [Audit | null]. With the [Audit]
    table keyed by id and the store answering the read, it returns the row
    of the table whose id is the argument when there is one, and otherwise
    fails with not-found: version A with Prisma's P2025, which the responder
    answers with 404, version B with a [NotFoundException] (404). *)
Theorem findAuditById_never_null (id : string) (w : World) :
  fst (AuditService_B.findAuditById id w) <> Returned None /\
  (keyed_by_id w -> answers 1 (faults w) = true ->
   match fst (AuditService_A.findAuditById id w) with
   | Returned a => audits w !! id = Some a /\ Audit.id a = id
   | Thrown e =>
       audits w !! id = None /\
       e = rejection (PrismaService.P2025 "No Audit found") /\
       AllExceptionsFilter.status (AllExceptionsFilter.getResponseMetadata e)
         = HttpStatus.NOT_FOUND
   end /\
   match fst (AuditService_B.findAuditById id w) with
   | Returned (Some a) => audits w !! id = Some a /\ Audit.id a = id
   | Returned None => False
   | Thrown e =>
       audits w !! id = None /\
       e = NotFoundException ("Audit with ID " +:+ id +:+ " not found.") /\
       AllExceptionsFilter.status (AllExceptionsFilter.getResponseMetadata e)
         = HttpStatus.NOT_FOUND
   end).
Proof.
  split.
  - destruct w as [rs au fs us un ck tk lg]. unfold_service. cbn.
    destruct fs as [|[e|] fs]; cbn; try discriminate;
      destruct (au !! id); cbn; discriminate.
  - intros Hkeys Hread. unfold keyed_by_id in Hkeys.
    destruct w as [rs au fs us un ck tk lg]. cbn in Hkeys, Hread.
    unfold_service. cbn.
    destruct fs as [|[e|] fs]; cbn; try discriminate;
      destruct (au !! id) as [a|] eqn:Hrow; cbn; auto.
Qed.

Lemma findAuditById_never_null_witness :
  match
    fst (AuditService_B.findAuditById (Sample.world.(ulid_source) 0%nat)
                                      audited_world)
  with
  | Returned (Some a) =>
      audits audited_world !! Sample.world.(ulid_source) 0%nat = Some a /\
      Audit.id a = Sample.world.(ulid_source) 0%nat
  | Returned None => False
  | Thrown e =>
      audits audited_world !! Sample.world.(ulid_source) 0%nat = None /\
      e = NotFoundException
            ("Audit with ID " +:+ Sample.world.(ulid_source) 0%nat
               +:+ " not found.") /\
      AllExceptionsFilter.status (AllExceptionsFilter.getResponseMetadata e)
        = HttpStatus.NOT_FOUND
  end.
Proof.
  apply (findAuditById_never_null (Sample.world.(ulid_source) 0%nat)
                                  audited_world).
  - exact audited_world_keyed.
  - reflexivity.
Defined.

Example findAuditById_found :
  fst (AuditService_B.findAuditById "01J0" audited_world)
    = Returned (Some (new_audit Sample.dto Sample.world)) /\
  fst (AuditService_A.findAuditById "01J0" audited_world)
    = Returned (new_audit Sample.dto Sample.world).
Proof. split; reflexivity. Qed.

Example findAuditById_not_found :
  fst (AuditService_B.findAuditById "nonexistentId" audited_world)
    = Thrown (NotFoundException "Audit with ID nonexistentId not found.").
Proof. reflexivity. Qed.

End Workflow.

(** * More of the code *)

(** ** More on the error responder *)
Section ResponderMore.

Import AllExceptionsFilter.

Lemma obj_set_fresh (k : string) (v : JsValue) (o : JsObject) :
  has_key k o = false -> obj_set k v o = (o ++ [(k, v)])%list.
Proof.
  unfold has_key.
  induction o as [|[k0 v0] o IH]; [reflexivity |].
  cbn [obj_set obj_get]. destruct (String.eqb k0 k); [discriminate |].
  intros H. cbn [app]. now rewrite (IH H).
Qed.

Lemma has_key_app (k : string) (o1 o2 : JsObject) :
  has_key k (o1 ++ o2)%list = has_key k o1 || has_key k o2.
Proof.
  unfold has_key.
  induction o1 as [|[k0 v0] o1 IH]; [reflexivity |].
  cbn [app obj_get]. destruct (String.eqb k0 k); [reflexivity | exact IH].
Qed.

Lemma pretty_N_go_digit (x : N) (s : string) :
  starts_with_digit s -> starts_with_digit (pretty_N_go x s).
Proof.
  revert s.
  induction x as [x IH] using (well_founded_induction N.lt_wf_0).
  intros s Hs.
  destruct (N.eq_dec x 0%N) as [-> | Hx].
  - now rewrite pretty_N_go_0.
  - rewrite pretty_N_go_step by lia.
    apply IH; [apply N.div_lt; lia |].
    exists (x mod 10)%N. split; [apply N.mod_lt; lia | reflexivity].
Qed.

Lemma pretty_N_digit (x : N) : starts_with_digit (pretty x).
Proof.
  unfold pretty, pretty_N.
  destruct (decide (x = 0%N)) as [_ | Hx].
  - exists 0%N. split; [lia | reflexivity].
  - rewrite pretty_N_go_step by lia.
    apply pretty_N_go_digit.
    exists (x mod 10)%N. split; [apply N.mod_lt; lia | reflexivity].
Qed.

(** An index is none of the names of the base fields. *)
Lemma base_body_no_index w request md :
  no_index_from 0 (base_body w request md).
Proof.
  intros m _. unfold base_body, has_key. cbn [obj_get].
  pose proof (pretty_N_digit m) as Hm.
  assert (Hne : forall k : string,
             ~ starts_with_digit k -> String.eqb k (pretty m) = false).
  { intros k Hk. apply String.eqb_neq. intros ->. exact (Hk Hm). }
  assert (Hletter : forall (c : ascii) (rest : string),
             (forall d : N, (d < 10)%N -> c <> pretty_N_char d) ->
             ~ starts_with_digit (String c rest)).
  { intros c rest Hc (d & Hd & ->). exact (Hc d Hd eq_refl). }
  rewrite !Hne; [reflexivity | ..]; apply Hletter; intros d Hd;
    assert (d = 0 \/ d = 1 \/ d = 2 \/ d = 3 \/ d = 4 \/ d = 5 \/ d = 6 \/
            d = 7 \/ d = 8 \/ d = 9)%N as Hcases by lia;
    repeat destruct Hcases as [-> | Hcases]; try subst d; discriminate.
Qed.

Lemma assign_indexed (xs : list JsValue) (n : N) (target : JsObject) :
  no_index_from n target ->
  assign target (indexed n xs) = (target ++ indexed n xs)%list.
Proof.
  revert n target.
  induction xs as [|x xs IH]; intros n target Hfree; cbn [indexed].
  - unfold assign. cbn. now rewrite app_nil_r.
  - unfold assign. cbn [fold_left fst snd].
    rewrite obj_set_fresh by (apply Hfree; lia).
    fold (assign (target ++ [(pretty n, x)])%list (indexed (N.succ n) xs)).
    rewrite IH.
    + now rewrite <- app_assoc.
    + intros m Hm. rewrite has_key_app, (Hfree m) by lia.
      unfold has_key. cbn [obj_get orb].
      destruct (String.eqb (pretty n) (pretty m)) eqn:E; [| reflexivity].
      apply String.eqb_eq, (inj pretty) in E. lia.
Qed.



Lemma obj_get_app (k : string) (o1 o2 : JsObject) :
  obj_get k (o1 ++ o2)%list
    = match obj_get k o1 with Some v => Some v | None => obj_get k o2 end.
Proof.
  induction o1 as [|[k0 v0] o1 IH]; [reflexivity |].
  cbn [app obj_get]. destruct (String.eqb k0 k); [reflexivity | exact IH].
Qed.

(** The property named by an index is the element at that index. *)
Lemma obj_get_indexed (xs : list JsValue) (n : N) (i : nat) :
  obj_get (pretty (n + N.of_nat i)%N) (indexed n xs) = xs !! i.
Proof.
  revert n i.
  induction xs as [|x xs IH]; intros n i; cbn [indexed obj_get];
    [now destruct i |].
  destruct i as [|i].
  - replace (n + N.of_nat 0)%N with n by lia.
    now rewrite String.eqb_refl.
  - destruct (String.eqb (pretty n) (pretty (n + N.of_nat (S i))%N)) eqn:E.
    + apply String.eqb_eq, (inj pretty) in E. lia.
    + replace (n + N.of_nat (S i))%N with (N.succ n + N.of_nat i)%N by lia.
      apply IH.
Qed.

Lemma has_key_indexed (k : string) (xs : list JsValue) (n : N) :
  has_key k (indexed n xs) = true ->
  exists i : nat, (i < length xs)%nat /\ k = pretty (n + N.of_nat i)%N.
Proof.
  unfold has_key. revert n.
  induction xs as [|x xs IH]; intros n; cbn [indexed obj_get];
    [discriminate |].
  destruct (String.eqb (pretty n) k) eqn:E.
  - intros _. apply String.eqb_eq in E. exists 0%nat.
    split; [cbn; lia |]. rewrite <- E. f_equal. lia.
  - intros H. destruct (IH _ H) as (i & Hi & ->).
    exists (S i). split; [cbn; lia |]. f_equal. lia.
Qed.

(** The names of the base fields, and no other, are keys of the base
    body. *)
Lemma has_key_base (k : string) w request md :
  has_key k (base_body w request md) = true <-> k ∈ base_keys.
Proof.
  unfold has_key, base_body, base_keys. cbn [obj_get]. split.
  - repeat match goal with
           | |- context [String.eqb ?a k] =>
               let E := fresh "E" in
               destruct (String.eqb a k) eqn:E;
               [apply String.eqb_eq in E; subst k; intros _; set_solver |]
           end.
    discriminate.
  - intros H.
    repeat (apply elem_of_cons in H as [-> | H]; [reflexivity |]).
    now apply elem_of_nil in H.
Qed.

(** X1. A [PrismaClientKnownRequestError] is never answered with 500:
    its status is 404 for the code P2025 and 400 for every other code, its
    message is a text and it has no details. Its envelope is the five base
    fields alone, no ULID is drawn for it and nothing is logged. *)
Theorem known_request_error_answered
    (code : string) (meta : option JsObject) (request : Request)
    (w : World) :
  let exception := PrismaClientKnownRequestError code meta in
  let md := getResponseMetadata exception in
  status md = (if String.eqb code "P2025" then 404 else 400) /\
  details md = JNull /\
  (exists text, message md = JStr text) /\
  exists r : Reply,
    fst (catch_ exception request w) = Returned r /\
    reply_status r = status md /\
    reply_body r = base_body w request md /\
    logged (snd (catch_ exception request w)) = logged w /\
    ulids_drawn (snd (catch_ exception request w)) = ulids_drawn w.
Proof.
  cbn zeta.
  assert (Hmd :
    status (getResponseMetadata (PrismaClientKnownRequestError code meta))
      = (if String.eqb code "P2025" then 404 else 400) /\
    details (getResponseMetadata (PrismaClientKnownRequestError code meta))
      = JNull /\
    exists text,
      message (getResponseMetadata (PrismaClientKnownRequestError code meta))
        = JStr text).
  { cbn [getResponseMetadata]. unfold handlePrismaError.
    destruct (String.eqb code "P2002") eqn:E2.
    { apply String.eqb_eq in E2. subst code. cbn. eauto. }
    destruct (String.eqb code "P2003") eqn:E3.
    { apply String.eqb_eq in E3. subst code. cbn. eauto. }
    destruct (String.eqb code "P2025"); cbn; eauto. }
  destruct Hmd as (Hstatus & Hdetails & text & Hmessage).
  repeat split; [exact Hstatus | exact Hdetails | eauto |].
  rewrite catch_run. cbn zeta. rewrite Hstatus, Hmessage.
  destruct (String.eqb code "P2025"); cbn; eexists; repeat split.
Qed.

(** X2. The responder logs a failure exactly when it answers it with 500:
    one record, holding the failure as it was thrown and the very [errorId]
    that the envelope carries. Any other failure leaves the log as it was.
    In no case does the responder touch the store. *)
Theorem unexpected_failures_logged
    (exception : Exception) (request : Request) (w : World) :
  let md := getResponseMetadata exception in
  let w' := snd (catch_ exception request w) in
  exists r : Reply,
    fst (catch_ exception request w) = Returned r /\
    (if status md =? 500
     then exists errorId,
            logged w'
              = (logged w
                   ++ [LogErrorId errorId exception
                         "Unexpected exception thrown" "ExceptionFilter"])%list
            /\ obj_get "errorId" (reply_body r) = Some (JStr errorId)
     else logged w' = logged w) /\
    reports w' = reports w /\ audits w' = audits w /\
    faults w' = faults w.
Proof.
  cbn zeta. rewrite catch_run. cbn zeta.
  change HttpStatus.INTERNAL_SERVER_ERROR with 500.
  destruct (status (getResponseMetadata exception) =? 500).
  - eexists. split; [reflexivity |]. split; [| repeat split].
    eexists. split; reflexivity.
  - eexists. repeat split.
Qed.


(** X4. How the exceptions that the services throw with a text reach the
    caller, the text not being empty. A [BadRequestException] and a
    [NotFoundException] are answered with their status (400, 404) and with
    that text as the [message] of the envelope, without details and without
    [errorId]; the envelope of the second also has the field [error]. *)
Theorem text_exception_answered
    (text : string) (request : Request) (w : World)
    (Htext : text <> "") :
  fst (catch_ (BadRequestException text) request w) =
    Returned
      {| reply_status := 400;
         reply_body :=
           [("statusCode", JNum 400);
            ("timestamp", JStr (toISOString (clock w (ticks w))));
            ("path", JStr (url request));
            ("message", JStr text);
            ("details", JNull)] |} /\
  fst (catch_ (NotFoundException text) request w) =
    Returned
      {| reply_status := 404;
         reply_body :=
           [("statusCode", JNum 404);
            ("timestamp", JStr (toISOString (clock w (ticks w))));
            ("path", JStr (url request));
            ("message", JStr text);
            ("details", JNull);
            ("error", JStr "Not Found")] |}.
Proof.
  destruct text as [|c text]; [contradiction |].
  split; rewrite catch_run; reflexivity.
Qed.

Lemma text_exception_answered_witness :
  fst (catch_
         (NotFoundException
            "Audit creation failed because there is no valid report with this ID.")
         Sample.request Sample.world) =
    Returned
      {| reply_status := 404;
         reply_body :=
           [("statusCode", JNum 404);
            ("timestamp", JStr "1970-01-01T00:00:00.000Z");
            ("path", JStr "/v1/audits");
            ("message",
             JStr "Audit creation failed because there is no valid report with this ID.");
            ("details", JNull);
            ("error", JStr "Not Found")] |}.
Proof.
  apply (text_exception_answered
           "Audit creation failed because there is no valid report with this ID."
           Sample.request Sample.world).
  discriminate.
Defined.

(** X5. A [BadRequestException] whose payload has an array as [message]
    (what the global [ValidationPipe] throws): the array is an object to
    [typeof], so its elements are merged into the envelope. The envelope has
    the five base fields, [message] being the array, and one field per
    element, named by the element's index and holding the element; it has
    no other field. *)
Theorem array_message_spread
    (payload : JsObject) (items : list JsValue) (request : Request)
    (w : World)
    (Hitems : prop "message" payload = JArr items) :
  exists r : Reply,
    fst (catch_ (BadRequestExceptionObj payload) request w) = Returned r /\
    reply_status r = 400 /\
    prop "statusCode" (reply_body r) = JNum 400 /\
    prop "timestamp" (reply_body r)
      = JStr (toISOString (clock w (ticks w))) /\
    prop "path" (reply_body r) = JStr (url request) /\
    prop "message" (reply_body r) = JArr items /\
    prop "details" (reply_body r) = js_or (prop "details" payload) JNull /\
    (forall i : nat,
        obj_get (pretty (N.of_nat i)) (reply_body r) = items !! i) /\
    (forall k,
        has_key k (reply_body r) = true ->
        k ∈ base_keys \/
        exists i : nat, (i < length items)%nat /\ k = pretty (N.of_nat i)).
Proof.
  set (md := {| status := 400; message := JArr items;
                details := js_or (prop "details" payload) JNull |}).
  assert (Hbody :
    fst (catch_ (BadRequestExceptionObj payload) request w) =
      Returned
        {| reply_status := 400;
           reply_body := (base_body w request md ++ indexed 0 items)%list |}).
  { rewrite catch_run. cbn zeta.
    cbn [getResponseMetadata BadRequestExceptionObj status message details
         getStatus].
    rewrite Hitems. cbn [Z.eqb Pos.eqb HttpStatus.BAD_REQUEST
                         HttpStatus.INTERNAL_SERVER_ERROR typeof_object fst].
    change (HttpStatus.BAD_REQUEST =? HttpStatus.INTERNAL_SERVER_ERROR)
      with false.
    cbv iota. cbn [fst]. do 2 f_equal.
    unfold spread. cbn [own_props].
    apply (assign_indexed items 0 (base_body w request md)).
    apply base_body_no_index. }
  eexists. split; [exact Hbody |]. cbn [reply_status reply_body].
  do 6 (split; [reflexivity |]). split.
  - intros i. rewrite obj_get_app.
    pose proof (base_body_no_index w request md (N.of_nat i)) as Hfree.
    unfold has_key in Hfree.
    destruct (obj_get (pretty (N.of_nat i)) (base_body w request md)).
    + discriminate Hfree. lia.
    + exact (obj_get_indexed items 0 i).
  - intros k. rewrite has_key_app.
    destruct (has_key k (base_body w request md)) eqn:Hbase.
    + left. now apply (has_key_base k w request md).
    + cbn [orb]. intros H. right.
      exact (has_key_indexed k items 0 H).
Qed.

Lemma array_message_spread_witness :
  exists r : Reply,
    fst (catch_
           (BadRequestExceptionObj
              [("statusCode", JNum 400);
               ("message", JArr [JStr "name should not be empty";
                                 JStr "email must be an email"]);
               ("error", JStr "Bad Request")])
           Sample.request Sample.world) = Returned r /\
    prop "message" (reply_body r)
      = JArr [JStr "name should not be empty";
              JStr "email must be an email"] /\
    obj_get "0" (reply_body r) = Some (JStr "name should not be empty") /\
    obj_get "1" (reply_body r) = Some (JStr "email must be an email") /\
    obj_get "2" (reply_body r) = None.
Proof.
  destruct (array_message_spread
              [("statusCode", JNum 400);
               ("message", JArr [JStr "name should not be empty";
                                 JStr "email must be an email"]);
               ("error", JStr "Bad Request")]
              [JStr "name should not be empty"; JStr "email must be an email"]
              Sample.request Sample.world eq_refl)
    as (r & Hrun & _ & _ & _ & _ & Hmessage & _ & Hindex & _).
  exists r. split; [exact Hrun |]. split; [exact Hmessage |].
  split; [exact (Hindex 0%nat) |].
  split; [exact (Hindex 1%nat) | exact (Hindex 2%nat)].
Defined.

End ResponderMore.

(** ** The body of an update *)
Section UpdateBody.

(** A body as [UpdateAuditSchema] wants it: an object whose [audited] is a
    boolean and whose [comments] is a string or [null]. *)
Lemma update_body_cases (body : JsValue) :
  (exists fields b c,
      body = JObj fields /\
      prop "audited" fields = JBool b /\
      prop "comments" fields = c /\
      (c = JNull \/ exists s, c = JStr s) /\
      ZodTypes.parse UpdateAuditSchema body
        = Returned (JObj [("audited", JBool b); ("comments", c)])) \/
  (exists issues,
      ZodTypes.parse UpdateAuditSchema body = Thrown (ZodError issues) /\
      (1 <= length issues <= 2)%nat /\
      Forall (fun i => Zod.path i ∈ update_issue_paths) issues /\
      (match body with
       | JObj _ => Forall (fun i => Zod.path i <> []) issues
       | _ => exists text, issues = [ {| Zod.message := text;
                                        Zod.path := [] |} ]
       end)).
Proof.
  unfold ZodTypes.parse, UpdateAuditSchema, ZodTypes.object,
    update_issue_paths.
  destruct body as [| |b|n|s|xs|fields];
    try (right; eexists; split; [reflexivity |];
         split; [cbn; lia |];
         split;
         [apply List.Forall_cons; [cbn; set_solver | apply List.Forall_nil]
         | eexists; reflexivity]).
  cbn [ZodTypes.parse_shape ZodTypes.boolean ZodTypes.string_
       ZodTypes.nullable app].
  destruct (prop "audited" fields) as [| |b|n|s|xs|o] eqn:Ha;
    destruct (prop "comments" fields) as [| |b'|n'|s'|xs'|o'] eqn:Hc;
    cbn;
    first
      [ left; exists fields; eexists _, _;
        split; [reflexivity |]; split; [exact Ha |]; split; [exact Hc |];
        split; [first [left; reflexivity | right; eexists; reflexivity]
               | reflexivity]
      | right; eexists; split; [reflexivity |];
        split; [cbn; lia |];
        split;
        repeat first
          [ apply List.Forall_nil
          | apply List.Forall_cons;
            [first [discriminate | cbn; set_solver] |] ] ].
Qed.

(** X6. [UpdateAuditSchema] accepts a body exactly when it is an object
    whose [audited] is a boolean and whose [comments] is a string or
    [null]; what it returns then is the object of these two properties and
    of no other, whatever else the body has. *)
Theorem update_body_accepted (body parsed : JsValue) :
  ZodTypes.parse UpdateAuditSchema body = Returned parsed <->
  exists fields b c,
    body = JObj fields /\
    prop "audited" fields = JBool b /\
    prop "comments" fields = c /\
    (c = JNull \/ exists s, c = JStr s) /\
    parsed = JObj [("audited", JBool b); ("comments", c)].
Proof.
  split.
  - intros Hparse.
    destruct (update_body_cases body)
      as [(fields & b & c & -> & Ha & Hc & Hnull & Hok)
         | (issues & Hbad & _)].
    + rewrite Hok in Hparse. injection Hparse as <-.
      exists fields, b, c. auto.
    + rewrite Hbad in Hparse. discriminate.
  - intros (fields & b & c & -> & Ha & Hc & Hnull & ->).
    destruct (update_body_cases (JObj fields))
      as [(fields' & b' & c' & [= <-] & Ha' & Hc' & _ & Hok)
         | (issues & Hbad & _ & _ & Hpaths)].
    + rewrite Hok. congruence.
    + exfalso. revert Hbad.
      unfold ZodTypes.parse, UpdateAuditSchema, ZodTypes.object.
      cbn [ZodTypes.parse_shape ZodTypes.boolean ZodTypes.string_
           ZodTypes.nullable app].
      rewrite Ha, Hc.
      destruct Hnull as [-> | [s ->]]; cbn; discriminate.
Qed.

(** X7. Round trips of the body of an update. What the schema returns it
    accepts again unchanged, and it is the JSON form of the dto it is read
    as; the JSON form of any dto is accepted and read back as that dto. *)
Theorem update_body_round_trip :
  (forall body parsed,
      ZodTypes.parse UpdateAuditSchema body = Returned parsed ->
      ZodTypes.parse UpdateAuditSchema parsed = Returned parsed /\
      UpdateAuditDto_to_js (UpdateAuditDto_of_js parsed) = parsed) /\
  (forall dto,
      ZodTypes.parse UpdateAuditSchema (UpdateAuditDto_to_js dto)
        = Returned (UpdateAuditDto_to_js dto) /\
      UpdateAuditDto_of_js (UpdateAuditDto_to_js dto) = dto).
Proof.
  split.
  - intros body parsed Hparse.
    destruct (update_body_cases body)
      as [(fields & b & c & -> & Ha & Hc & Hnull & Hok)
         | (issues & Hbad & _)].
    + rewrite Hok in Hparse. injection Hparse as <-.
      destruct Hnull as [-> | [s ->]]; split; reflexivity.
    + rewrite Hbad in Hparse. discriminate.
  - intros [b [s|]]; split; reflexivity.
Qed.

Lemma update_body_round_trip_witness :
  ZodTypes.parse UpdateAuditSchema
    (JObj [("audited", JBool true); ("comments", JNull)])
  = Returned (JObj [("audited", JBool true); ("comments", JNull)]).
Proof.
  apply (proj1 update_body_round_trip
           (JObj [("id", JStr "other"); ("audited", JBool true);
                  ("comments", JNull)])).
  reflexivity.
Defined.

(** X8. [UpdateAuditSchema] rejects every other body with a [ZodError],
    never with anything else, and the error lists every offence: one issue
    at the root when the body is not an object, and otherwise one issue for
    [audited] if it is not a boolean followed by one for [comments] if it is
    neither a string nor [null], each at the path of its property and
    saying "Required" for a property that is missing and which type was
    expected and which received for any other. *)
Theorem update_body_rejected (body : JsValue) (e : Exception) :
  ZodTypes.parse UpdateAuditSchema body = Thrown e ->
  exists issues,
    e = ZodError issues /\
    issues <> [] /\
    issues =
      match body with
      | JObj fields =>
          (match prop "audited" fields with
           | JBool _ => []
           | v => [ZodTypes.invalid_type "boolean" [Zod.Key "audited"] v]
           end
           ++
           match prop "comments" fields with
           | JStr _ | JNull => []
           | v => [ZodTypes.invalid_type "string" [Zod.Key "comments"] v]
           end)%list
      | v => [ZodTypes.invalid_type "object" [] v]
      end.
Proof.
  unfold ZodTypes.parse, UpdateAuditSchema, ZodTypes.object.
  destruct body as [| |b|n|s|xs|fields];
    try (intros [= <-]; eexists; split; [reflexivity |];
         split; [discriminate | reflexivity]).
  cbn [ZodTypes.parse_shape ZodTypes.boolean ZodTypes.string_
       ZodTypes.nullable app].
  destruct (prop "audited" fields) as [| |b|n|s|xs|o];
    destruct (prop "comments" fields) as [| |b'|n'|s'|xs'|o'];
    cbn; intros [= <-]; eexists; split; try reflexivity;
    split; try discriminate; reflexivity.
Qed.

Lemma update_body_rejected_witness :
  exists issues,
    ZodTypes.parse UpdateAuditSchema (JObj [("audited", JStr "notBoolean")])
      = Thrown (ZodError issues) /\
    issues =
      [ {| Zod.message := "Expected boolean, received string";
           Zod.path := [Zod.Key "audited"] |};
        {| Zod.message := "Required"; Zod.path := [Zod.Key "comments"] |} ].
Proof.
  destruct (update_body_rejected
              (JObj [("audited", JStr "notBoolean")])
              (ZodError
                 [ {| Zod.message := "Expected boolean, received string";
                      Zod.path := [Zod.Key "audited"] |};
                   {| Zod.message := "Required";
                      Zod.path := [Zod.Key "comments"] |} ])
              eq_refl)
    as (issues & He & _ & Hissues).
  exists issues. split; [now rewrite <- He | exact Hissues].
Defined.

End UpdateBody.

(** ** The other operations on audits *)
Section AuditEdits.

(** The fault scripts that let the next four calls through. *)
Lemma answers_4_cases (fs : list (option PrismaError)) :
  answers 4 fs = true ->
  fs = [] \/ fs = [None] \/ fs = [None; None] \/ fs = [None; None; None] \/
  exists rest, fs = None :: None :: None :: None :: rest.
Proof.
  destruct fs as [|[e1|] [|[e2|] [|[e3|] [|[e4|] rest]]]];
    cbn; intros H; try discriminate; eauto 10.
Qed.

Lemma answers_2_cases (fs : list (option PrismaError)) :
  answers 2 fs = true ->
  fs = [] \/ fs = [None] \/ exists rest, fs = None :: None :: rest.
Proof.
  destruct fs as [|[e1|] [|[e2|] rest]];
    cbn; intros H; try discriminate; eauto.
Qed.

Lemma answers_3_cases (fs : list (option PrismaError)) :
  answers 3 fs = true ->
  fs = [] \/ fs = [None] \/ fs = [None; None] \/
  exists rest, fs = None :: None :: None :: rest.
Proof.
  destruct fs as [|[e1|] [|[e2|] [|[e3|] rest]]];
    cbn; intros H; try discriminate; eauto 10.
Qed.

(** X9. Create, then read. An audit that [createAudit] returns is found by
    [findAuditById] under the id it was given, as the very row that was
    returned, in both versions of the service. *)
Theorem created_audit_found (dto : CreateAuditDto) (w : World)
    (r : RecyclingReport.t)
    (Hreport : reports w !! reportId dto = Some r)
    (Hstore : answers 4 (faults w) = true)
    (Hfresh : audits w !! ulid_source w (ulids_drawn w) = None) :
  fst (bind (AuditService_A.createAudit dto)
            (fun audit => AuditService_A.findAuditById (Audit.id audit)) w)
    = Returned (new_audit dto w) /\
  fst (bind (AuditService_B.createAudit dto)
            (fun audit => AuditService_B.findAuditById (Audit.id audit)) w)
    = Returned (Some (new_audit dto w)).
Proof.
  destruct w as [rs au fs us un ck tk lg].
  cbn in Hreport, Hstore, Hfresh.
  apply answers_4_cases in Hstore.
  split; unfold_service; unfold new_audit; cbn;
    destruct Hstore as [-> | [-> | [-> | [-> | [rest ->]]]]]; cbn;
    repeat (first [rewrite Hreport | rewrite Hfresh
                  | rewrite lookup_insert_eq]; cbn);
    reflexivity.
Qed.

Lemma created_audit_found_witness :
  fst (bind (AuditService_B.createAudit Sample.dto)
            (fun audit => AuditService_B.findAuditById (Audit.id audit))
            Sample.world)
    = Returned (Some (new_audit Sample.dto Sample.world)).
Proof.
  exact (proj2 (created_audit_found Sample.dto Sample.world Sample.report
                  eq_refl eq_refl eq_refl)).
Defined.

(** X10. An update or a deletion of an audit that is not there changes
    nothing and calls the store once, for the read: the update or the
    deletion itself is never called. When the store answers the read, the
    failure is not-found: Prisma's P2025 in version A, the
    [NotFoundException] naming the id in version B, both answered 404. *)
Theorem missing_audit_untouched (id : string) (dto : UpdateAuditDto.t)
    (w : World)
    (Hmissing : audits w !! id = None) :
  let untouched (w' : World) :=
    reports w' = reports w /\ audits w' = audits w /\
    faults w' = drop 1 (faults w) in
  untouched (snd (AuditService_A.updateAudit id dto w)) /\
  untouched (snd (AuditService_B.updateAudit id dto w)) /\
  untouched (snd (AuditService_A.deleteAudit id w)) /\
  untouched (snd (AuditService_B.deleteAudit id w)) /\
  (answers 1 (faults w) = true ->
   fst (AuditService_A.updateAudit id dto w)
     = Thrown (rejection (PrismaService.P2025 "No Audit found")) /\
   fst (AuditService_A.deleteAudit id w)
     = Thrown (rejection (PrismaService.P2025 "No Audit found")) /\
   fst (AuditService_B.updateAudit id dto w) = Thrown (audit_not_found id) /\
   fst (AuditService_B.deleteAudit id w) = Thrown (audit_not_found id) /\
   AllExceptionsFilter.status
     (AllExceptionsFilter.getResponseMetadata
        (rejection (PrismaService.P2025 "No Audit found"))) = 404 /\
   AllExceptionsFilter.status
     (AllExceptionsFilter.getResponseMetadata (audit_not_found id)) = 404).
Proof.
  destruct w as [rs au fs us un ck tk lg]. cbn in Hmissing. cbn zeta.
  unfold audit_not_found.
  repeat split; try reflexivity;
    try (unfold_crud; cbn;
         destruct fs as [|[e|] fs]; cbn; rewrite ?Hmissing; cbn;
         reflexivity).
  all: cbn [faults] in *; unfold_crud; cbn;
    destruct fs as [|[e|] fs]; try discriminate; cbn; rewrite Hmissing;
    reflexivity.
Qed.

Lemma missing_audit_untouched_witness :
  fst (AuditService_B.deleteAudit "nonexistentId" Sample.world)
    = Thrown (audit_not_found "nonexistentId") /\
  audits (snd (AuditService_B.deleteAudit "nonexistentId" Sample.world))
    = audits Sample.world.
Proof.
  destruct (missing_audit_untouched "nonexistentId"
              {| UpdateAuditDto.audited := true;
                 UpdateAuditDto.comments := None |}
              Sample.world eq_refl)
    as (_ & _ & _ & (_ & Haudits & _) & Hfound).
  destruct (Hfound eq_refl) as (_ & _ & _ & Hdelete & _).
  split; [exact Hdelete | exact Haudits].
Defined.

(** X11. An update of an audit that is there, the store answering the read
    and the update: both versions return the row with [audited] and
    [comments] taken from the dto and [id], [reportId], [auditorId] and
    [createdAt] as they were, store it under the same id and leave every
    other audit as it was; a read of the id then gives that row. *)
Theorem updateAudit_applies (id : string) (dto : UpdateAuditDto.t)
    (w : World) (a : Audit.t)
    (Hrow : audits w !! id = Some a)
    (Hstore : answers 2 (faults w) = true) :
  let a' := updated_audit a dto w in
  (Audit.audited a' = UpdateAuditDto.audited dto /\
   Audit.comments a' = UpdateAuditDto.comments dto /\
   Audit.id a' = Audit.id a /\ Audit.reportId a' = Audit.reportId a /\
   Audit.auditorId a' = Audit.auditorId a /\
   Audit.createdAt a' = Audit.createdAt a) /\
  (fst (AuditService_A.updateAudit id dto w) = Returned a' /\
   audits (snd (AuditService_A.updateAudit id dto w))
     = <[id := a']> (audits w)) /\
  (fst (AuditService_B.updateAudit id dto w) = Returned a' /\
   audits (snd (AuditService_B.updateAudit id dto w))
     = <[id := a']> (audits w)) /\
  (<[id := a']> (audits w) !! id = Some a' /\
   forall k, k <> id -> <[id := a']> (audits w) !! k = audits w !! k).
Proof.
  destruct w as [rs au fs us un ck tk lg]. cbn in Hrow, Hstore. cbn zeta.
  apply answers_2_cases in Hstore.
  split; [repeat split |].
  split; [| split].
  - unfold_crud; unfold updated_audit; cbn;
      destruct Hstore as [-> | [-> | [rest ->]]]; cbn;
      repeat (rewrite Hrow; cbn); split; reflexivity.
  - unfold_crud; unfold updated_audit; cbn;
      destruct Hstore as [-> | [-> | [rest ->]]]; cbn;
      repeat (rewrite Hrow; cbn); split; reflexivity.
  - cbn [audits]. split; [apply lookup_insert_eq |].
    intros k Hk. apply lookup_insert_ne. congruence.
Qed.

Lemma updateAudit_applies_witness :
  fst (AuditService_B.updateAudit "01J0"
         {| UpdateAuditDto.audited := false;
            UpdateAuditDto.comments := Some "Updated comments" |}
         audited_world)
    = Returned
        (updated_audit (new_audit Sample.dto Sample.world)
           {| UpdateAuditDto.audited := false;
              UpdateAuditDto.comments := Some "Updated comments" |}
           audited_world).
Proof.
  destruct (updateAudit_applies "01J0"
              {| UpdateAuditDto.audited := false;
                 UpdateAuditDto.comments := Some "Updated comments" |}
              audited_world (new_audit Sample.dto Sample.world)
              eq_refl eq_refl)
    as (_ & _ & (Hrun & _) & _).
  exact Hrun.
Defined.

(** X12. A deletion of an audit that is there, the store answering: both
    versions return the row as it was and take it, and nothing else, out of
    the table; a read of the id that follows fails with not-found. *)
Theorem deleteAudit_removes (id : string) (w : World) (a : Audit.t)
    (Hrow : audits w !! id = Some a)
    (Hstore : answers 3 (faults w) = true) :
  (fst (AuditService_A.deleteAudit id w) = Returned a /\
   audits (snd (AuditService_A.deleteAudit id w)) = delete id (audits w) /\
   fst (bind (AuditService_A.deleteAudit id)
             (fun _ => AuditService_A.findAuditById id) w)
     = Thrown (rejection (PrismaService.P2025 "No Audit found"))) /\
  (fst (AuditService_B.deleteAudit id w) = Returned a /\
   audits (snd (AuditService_B.deleteAudit id w)) = delete id (audits w) /\
   fst (bind (AuditService_B.deleteAudit id)
             (fun _ => AuditService_B.findAuditById id) w)
     = Thrown (audit_not_found id)) /\
  (delete id (audits w) !! id = None /\
   forall k, k <> id -> delete id (audits w) !! k = audits w !! k).
Proof.
  destruct w as [rs au fs us un ck tk lg]. cbn in Hrow, Hstore.
  apply answers_3_cases in Hstore. unfold audit_not_found.
  split; [| split].
  - unfold_crud; cbn;
      destruct Hstore as [-> | [-> | [-> | [rest ->]]]]; cbn;
      repeat (first [rewrite Hrow | rewrite lookup_delete_eq]; cbn);
      repeat split.
  - unfold_crud; cbn;
      destruct Hstore as [-> | [-> | [-> | [rest ->]]]]; cbn;
      repeat (first [rewrite Hrow | rewrite lookup_delete_eq]; cbn);
      repeat split.
  - cbn [audits]. split; [apply lookup_delete_eq |].
    intros k Hk. apply lookup_delete_ne. congruence.
Qed.

Lemma deleteAudit_removes_witness :
  fst (AuditService_A.deleteAudit "01J0" audited_world)
    = Returned (new_audit Sample.dto Sample.world) /\
  audits (snd (AuditService_A.deleteAudit "01J0" audited_world))
    = delete "01J0" (audits audited_world).
Proof.
  destruct (deleteAudit_removes "01J0" audited_world
              (new_audit Sample.dto Sample.world) eq_refl eq_refl)
    as ((Hrun & Haudits & _) & _).
  split; [exact Hrun | exact Haudits].
Defined.

(** X13. When the store answers the read and then rejects the update or
    the deletion itself, neither version catches the rejection: it reaches
    the caller as the store threw it, and the table is as it was. *)
Theorem edit_rejection_surfaces (id : string) (dto : UpdateAuditDto.t)
    (w : World) (a : Audit.t) (e : PrismaError)
    (rest : list (option PrismaError))
    (Hrow : audits w !! id = Some a)
    (Hscript : faults w = None :: Some e :: rest) :
  let rejected (run : Outcome Audit.t * World) :=
    fst run = Thrown (rejection e) /\
    audits (snd run) = audits w /\ reports (snd run) = reports w /\
    faults (snd run) = rest in
  rejected (AuditService_A.updateAudit id dto w) /\
  rejected (AuditService_B.updateAudit id dto w) /\
  rejected (AuditService_A.deleteAudit id w) /\
  rejected (AuditService_B.deleteAudit id w).
Proof.
  destruct w as [rs au fs us un ck tk lg]. cbn in Hrow, Hscript. subst fs.
  cbn zeta.
  repeat split; unfold_crud; cbn; repeat (rewrite Hrow; cbn); reflexivity.
Qed.

Lemma edit_rejection_surfaces_witness :
  fst (AuditService_B.updateAudit "01J0"
         {| UpdateAuditDto.audited := true;
            UpdateAuditDto.comments := Some "Updated comment" |}
         (with_faults
            [None; Some (UnknownRequestError "Database update error")]
            audited_world))
    = Thrown (OtherError "Database update error").
Proof.
  destruct (edit_rejection_surfaces "01J0"
              {| UpdateAuditDto.audited := true;
                 UpdateAuditDto.comments := Some "Updated comment" |}
              (with_faults
                 [None; Some (UnknownRequestError "Database update error")]
                 audited_world)
              (new_audit Sample.dto Sample.world)
              (UnknownRequestError "Database update error") []
              eq_refl eq_refl)
    as (_ & (Hrun & _) & _).
  exact Hrun.
Defined.

(** X14. Reading, updating and deleting audits never write to the
    [RecyclingReport] table, whatever the outcome: in particular an update
    that changes [audited], or a deletion, leaves the flag that
    [createAudit] set on the report as it is. *)
Theorem audit_edits_leave_reports (id : string) (dto : UpdateAuditDto.t)
    (w : World) :
  reports (snd (AuditService_A.updateAudit id dto w)) = reports w /\
  reports (snd (AuditService_B.updateAudit id dto w)) = reports w /\
  reports (snd (AuditService_A.deleteAudit id w)) = reports w /\
  reports (snd (AuditService_B.deleteAudit id w)) = reports w /\
  reports (snd (AuditService_A.findAuditById id w)) = reports w /\
  reports (snd (AuditService_B.findAuditById id w)) = reports w /\
  reports (snd (AuditService_A.findAllAudits w)) = reports w /\
  reports (snd (AuditService_B.findAllAudits w)) = reports w.
Proof.
  destruct w as [rs au fs us un ck tk lg].
  repeat split; unfold_crud; crunch; reflexivity.
Qed.

(** The flag of the sample report after an audit with [audited = true] was
    created and then updated to [audited = false]: still [true]. *)
Example report_flag_not_synced :
  let dto :=
    {| UpdateAuditDto.audited := false; UpdateAuditDto.comments := None |} in
  Audit.audited
    <$> (audits (snd (AuditService_B.updateAudit "01J0" dto audited_world))
           !! "01J0") = Some false /\
  RecyclingReport.audited
    <$> (reports (snd (AuditService_B.updateAudit "01J0" dto audited_world))
           !! "r-1") = Some true.
Proof. split; reflexivity. Qed.

(** What an update or a deletion can make of the [Audit] table. *)
Lemma edit_audits_cases (id : string) (dto : UpdateAuditDto.t) (w : World) :
  let edited (w' : World) :=
    audits w' = audits w \/
    audits w' = delete id (audits w) \/
    exists a, audits w !! id = Some a /\
              audits w' = <[id := updated_audit a dto w]> (audits w) in
  edited (snd (AuditService_A.updateAudit id dto w)) /\
  edited (snd (AuditService_B.updateAudit id dto w)) /\
  edited (snd (AuditService_A.deleteAudit id w)) /\
  edited (snd (AuditService_B.deleteAudit id w)).
Proof.
  destruct w as [rs au fs us un ck tk lg]. cbn zeta.
  repeat split; unfold_crud; unfold updated_audit; crunch; eauto.
Qed.

Lemma keyed_after_edit (id : string) (dto : UpdateAuditDto.t)
    (w w' : World) :
  keyed_by_id w ->
  (audits w' = audits w \/
   audits w' = delete id (audits w) \/
   exists a, audits w !! id = Some a /\
             audits w' = <[id := updated_audit a dto w]> (audits w)) ->
  keyed_by_id w'.
Proof.
  intros Hkeys [Hsame | [Hdel | (a & Hrow & Hupd)]] k b Hk.
  - rewrite Hsame in Hk. exact (Hkeys k b Hk).
  - rewrite Hdel in Hk. apply lookup_delete_Some in Hk as [_ Hk].
    exact (Hkeys k b Hk).
  - rewrite Hupd in Hk.
    destruct (decide (id = k)) as [<- | Hne].
    + rewrite lookup_insert_eq in Hk. injection Hk as <-.
      exact (Hkeys id a Hrow).
    + rewrite lookup_insert_ne in Hk by exact Hne. exact (Hkeys k b Hk).
Qed.

(** X15. The [Audit] table stays keyed by the id of its rows under every
    operation of the two services, whatever its outcome: creating,
    updating and deleting an audit. *)
Theorem audit_table_stays_keyed (id : string) (create : CreateAuditDto)
    (dto : UpdateAuditDto.t) (w : World)
    (Hkeys : keyed_by_id w) :
  keyed_by_id (snd (AuditService_A.createAudit create w)) /\
  keyed_by_id (snd (AuditService_B.createAudit create w)) /\
  keyed_by_id (snd (AuditService_A.updateAudit id dto w)) /\
  keyed_by_id (snd (AuditService_B.updateAudit id dto w)) /\
  keyed_by_id (snd (AuditService_A.deleteAudit id w)) /\
  keyed_by_id (snd (AuditService_B.deleteAudit id w)).
Proof.
  destruct (createAudit_keeps_keys create w Hkeys) as [HA HB].
  destruct (edit_audits_cases id dto w) as (H1 & H2 & H3 & H4).
  repeat split; try assumption;
    eapply (keyed_after_edit id dto w); eassumption.
Qed.

Lemma audit_table_stays_keyed_witness :
  keyed_by_id
    (snd (AuditService_B.updateAudit "01J0"
            {| UpdateAuditDto.audited := false;
               UpdateAuditDto.comments := None |} audited_world)).
Proof.
  destruct (audit_table_stays_keyed "01J0" Sample.dto
              {| UpdateAuditDto.audited := false;
                 UpdateAuditDto.comments := None |}
              audited_world audited_world_keyed)
    as (_ & _ & _ & Hkeys & _).
  exact Hkeys.
Defined.

(** X16. Every failure of version B of [createAudit] is one of the three
    HTTP exceptions it throws itself (not-found, bad request, internal
    server error): no error of the store ever leaves it as it was thrown.
    Version A lets exactly one error of the store through, the rejection of
    the read of step 1, which it does not catch. *)
Theorem createAudit_failures (dto : CreateAuditDto) (w : World)
    (e : Exception) :
  (fst (AuditService_B.createAudit dto w) = Thrown e ->
   exists text,
     e = NotFoundException text \/ e = BadRequestException text \/
     e = InternalServerErrorException text) /\
  (fst (AuditService_A.createAudit dto w) = Thrown e ->
   (exists text,
       e = NotFoundException text \/ e = BadRequestException text \/
       e = InternalServerErrorException text) \/
   (exists pe rest, faults w = Some pe :: rest /\ e = rejection pe)).
Proof.
  destruct w as [rs au fs us un ck tk lg].
  split; unfold_service; crunch; intros [= <-]; eauto 10.
Qed.

Lemma createAudit_failures_witness :
  exists text,
    NotFoundException "RecyclingReport with ID r-404 not found."
      = NotFoundException text \/
    NotFoundException "RecyclingReport with ID r-404 not found."
      = BadRequestException text \/
    NotFoundException "RecyclingReport with ID r-404 not found."
      = InternalServerErrorException text.
Proof.
  apply (proj1 (createAudit_failures
                  {| reportId := "r-404"; audited := true;
                     auditorId := "a-1"; comments := None |}
                  Sample.world
                  (NotFoundException
                     "RecyclingReport with ID r-404 not found."))).
  reflexivity.
Defined.

End AuditEdits.

(** ** Listing audits *)
Section AuditList.

Lemma rows_of_table (au : gmap string Audit.t) (a : Audit.t) :
  a ∈ List.map snd (map_to_list au) <-> exists k, au !! k = Some a.
Proof.
  rewrite list_elem_of_In, List.in_map_iff. split.
  - intros ([k a'] & <- & Hin). exists k.
    apply elem_of_map_to_list, list_elem_of_In, Hin.
  - intros [k Hk]. exists (k, a). split; [reflexivity |].
    apply list_elem_of_In, elem_of_map_to_list, Hk.
Qed.

(** X17. [findAllAudits] returns the rows of the [Audit] table, each row
    once and nothing else, and changes neither table; an audit that
    [createAudit] has just returned is among them, and the list is then one
    longer than the table was. *)
Theorem findAllAudits_lists (w : World)
    (Hstore : answers 1 (faults w) = true) :
  let rows := List.map snd (map_to_list (audits w)) in
  fst (AuditService_A.findAllAudits w) = Returned rows /\
  fst (AuditService_B.findAllAudits w) = Returned rows /\
  (forall a, a ∈ rows <-> exists k, audits w !! k = Some a) /\
  length rows = size (audits w) /\
  audits (snd (AuditService_A.findAllAudits w)) = audits w /\
  audits (snd (AuditService_B.findAllAudits w)) = audits w /\
  (forall dto r,
      reports w !! reportId dto = Some r ->
      answers 4 (faults w) = true ->
      audits w !! ulid_source w (ulids_drawn w) = None ->
      exists rows',
        fst (bind (AuditService_B.createAudit dto)
                  (fun _ => AuditService_B.findAllAudits) w)
          = Returned rows' /\
        new_audit dto w ∈ rows' /\
        length rows' = S (size (audits w))).
Proof.
  destruct w as [rs au fs us un ck tk lg]. cbn in Hstore. cbn zeta.
  cbn [audits].
  split; [| split; [| split; [| split; [| split; [| split]]]]].
  - unfold_crud; cbn; destruct fs as [|[e|] fs]; try discriminate;
      reflexivity.
  - unfold_crud; cbn; destruct fs as [|[e|] fs]; try discriminate;
      reflexivity.
  - intros a. apply rows_of_table.
  - rewrite List.length_map. apply length_map_to_list.
  - unfold_crud; cbn; destruct fs as [|[e|] fs]; try discriminate;
      reflexivity.
  - unfold_crud; cbn; destruct fs as [|[e|] fs]; try discriminate;
      reflexivity.
  - intros dto r Hreport Hfour Hfresh. cbn in Hreport, Hfour, Hfresh.
    apply answers_4_cases in Hfour.
    exists (List.map snd
              (map_to_list
                 (<[us un := new_audit dto
                      {| reports := rs; audits := au; faults := fs;
                         ulid_source := us; ulids_drawn := un;
                         clock := ck; ticks := tk; logged := lg |}]> au))).
    split; [| split].
    + unfold_crud; unfold new_audit; cbn;
        destruct Hfour as [-> | [-> | [-> | [-> | [rest ->]]]]]; cbn;
        repeat (first [rewrite Hreport | rewrite Hfresh]; cbn);
        reflexivity.
    + apply rows_of_table. exists (us un). apply lookup_insert_eq.
    + rewrite List.length_map, length_map_to_list.
      apply map_size_insert_None, Hfresh.
Qed.

Lemma findAllAudits_lists_witness :
  fst (AuditService_A.findAllAudits audited_world)
    = Returned (List.map snd (map_to_list (audits audited_world))) /\
  length (List.map snd (map_to_list (audits audited_world)))
    = size (audits audited_world).
Proof.
  destruct (findAllAudits_lists audited_world eq_refl)
    as (Hrun & _ & _ & Hlen & _).
  split; [exact Hrun | exact Hlen].
Defined.

End AuditList.

(** ** The controller and the responder together *)
Section Requests.

Import AllExceptionsFilter.

(** X18. [findOne] of the controller returns the audit stored under the id,
    or fails with the failure of the service: the rejection of the read, or
    the [NotFoundException] naming the id. Its own check of the audit never
    fires: for an audit that is not there exactly one warning is logged,
    the service's, and none otherwise. *)
Theorem findOne_check_never_fires (id : string) (w : World) :
  let run := AuditController.findOne id w in
  fst run =
    match faults w with
    | Some pe :: _ => Thrown (rejection pe)
    | _ =>
        match audits w !! id with
        | Some a => Returned a
        | None => Thrown (audit_not_found id)
        end
    end /\
  warnings (logged (snd run)) =
    (warnings (logged w) ++
       match faults w, audits w !! id with
       | Some _ :: _, _ | _, Some _ => []
       | _, None =>
           [LogWarn ("Audit with ID " +:+ id +:+ " not found")
                    (Some "FindAuditById")]
       end)%list.
Proof.
  destruct w as [rs au fs us un ck tk lg]. cbn zeta. cbn [faults audits].
  unfold audit_not_found, warnings.
  unfold_crud. cbn.
  destruct fs as [|[pe|] fs]; cbn;
    try (destruct (au !! id) as [a|]; cbn);
    (split; [reflexivity |]);
    rewrite ?List.filter_app; cbn; rewrite ?app_nil_r; reflexivity.
Qed.

(** X19. A request for an audit that is not there, the store answering the
    read: reading and deleting through the controller are answered with 404
    and the message "Audit with ID ... not found.", without [errorId] and
    without a change to the table; the same read through version A of the
    service is answered with 404 and Prisma's fixed message. *)
Theorem missing_audit_answered (id : string) (request : Request)
    (w : World)
    (Hmissing : audits w !! id = None)
    (Hread : answers 1 (faults w) = true) :
  fst (dispatch (AuditController.findOne id) request w)
    = Returned (inr (audit_not_found_reply id request w)) /\
  fst (dispatch (AuditController.remove id) request w)
    = Returned (inr (audit_not_found_reply id request w)) /\
  audits (snd (dispatch (AuditController.remove id) request w))
    = audits w /\
  fst (dispatch (AuditService_A.findAuditById id) request w)
    = Returned
        (inr {| reply_status := 404;
                reply_body :=
                  [("statusCode", JNum 404);
                   ("timestamp", JStr (toISOString (clock w (ticks w))));
                   ("path", JStr (url request));
                   ("message",
                    JStr "Record not found for the specified operation.");
                   ("details", JNull)] |}).
Proof.
  destruct w as [rs au fs us un ck tk lg]. cbn in Hmissing, Hread.
  unfold audit_not_found_reply, dispatch.
  repeat split; unfold_crud; cbn;
    destruct fs as [|[pe|] fs]; try discriminate; cbn;
    rewrite Hmissing; cbn; reflexivity.
Qed.

Lemma missing_audit_answered_witness :
  fst (dispatch (AuditController.findOne "nonexistentId") Sample.request
                Sample.world)
    = Returned
        (inr (audit_not_found_reply "nonexistentId" Sample.request
                                    Sample.world)).
Proof.
  destruct (missing_audit_answered "nonexistentId" Sample.request
              Sample.world eq_refl eq_refl) as (Hfind & _).
  exact Hfind.
Defined.

(** X20. An update whose body the schema rejects stops at the pipe: the
    handler does not run, nothing is logged, the store is not called and no
    table changes. The request is answered 400 with the message
    "Validation failed" and, as details, one entry per issue of the one or
    two that the schema raised. *)
Theorem invalid_update_stops_at_pipe (id : string) (body : JsValue)
    (e : Exception) (request : Request) (w : World)
    (Hinvalid : ZodTypes.parse UpdateAuditSchema body = Thrown e) :
  exists issues,
    e = ZodError issues /\
    (1 <= length issues <= 2)%nat /\
    AuditController.update id body w =
      (Thrown (BadRequestExceptionObj
                 [("message", JStr "Validation failed");
                  ("details",
                   JArr (List.map ZodValidationPipe.issue_detail issues))]),
       w) /\
    dispatch (AuditController.update id body) request w =
      (Returned
         (inr {| reply_status := 400;
                 reply_body :=
                   [("statusCode", JNum 400);
                    ("timestamp", JStr (toISOString (clock w (ticks w))));
                    ("path", JStr (url request));
                    ("message", JStr "Validation failed");
                    ("details",
                     JArr (List.map ZodValidationPipe.issue_detail issues))]
              |}),
       with_ticks (S (ticks w)) w).
Proof.
  destruct (update_body_cases body)
    as [(fields & b & c & -> & Ha & Hc & Hnull & Hok)
       | (issues & Hbad & Hlen & _)].
  { rewrite Hok in Hinvalid. discriminate. }
  rewrite Hbad in Hinvalid. injection Hinvalid as <-.
  exists issues. split; [reflexivity |]. split; [exact Hlen |].
  assert (Hrun :
    AuditController.update id body w =
      (Thrown (BadRequestExceptionObj
                 [("message", JStr "Validation failed");
                  ("details",
                   JArr (List.map ZodValidationPipe.issue_detail issues))]),
       w)).
  { unfold AuditController.update, ZodValidationPipe.transform.
    rewrite Hbad. reflexivity. }
  split; [exact Hrun |].
  unfold dispatch. rewrite Hrun, catch_run. reflexivity.
Qed.

Lemma invalid_update_stops_at_pipe_witness :
  exists issues,
    (1 <= length issues <= 2)%nat /\
    AuditController.update "01J0" (JObj [("audited", JStr "notBoolean");
                                         ("comments", JStr "Updated comments")])
                           audited_world =
      (Thrown (BadRequestExceptionObj
                 [("message", JStr "Validation failed");
                  ("details",
                   JArr (List.map ZodValidationPipe.issue_detail issues))]),
       audited_world).
Proof.
  destruct (invalid_update_stops_at_pipe "01J0"
              (JObj [("audited", JStr "notBoolean");
                     ("comments", JStr "Updated comments")])
              (ZodError
                 [ {| Zod.message := "Expected boolean, received string";
                      Zod.path := [Zod.Key "audited"] |} ])
              Sample.request audited_world eq_refl)
    as (issues & _ & Hlen & Hrun & _).
  exists issues. split; [exact Hlen | exact Hrun].
Defined.



End Requests.

(** ** Runs on the sample world *)

Lemma update_body_accepted_witness :
  ZodTypes.parse UpdateAuditSchema
    (JObj [("audited", JBool false); ("comments", JStr "Updated comments");
           ("reportId", JStr "r-2")])
  = Returned (JObj [("audited", JBool false);
                    ("comments", JStr "Updated comments")]).
Proof.
  apply (proj2 (update_body_accepted
                  (JObj [("audited", JBool false);
                         ("comments", JStr "Updated comments");
                         ("reportId", JStr "r-2")])
                  (JObj [("audited", JBool false);
                         ("comments", JStr "Updated comments")]))).
  exists [("audited", JBool false); ("comments", JStr "Updated comments");
          ("reportId", JStr "r-2")], false, (JStr "Updated comments").
  repeat split. right. now exists "Updated comments".
Defined.

Lemma createAudit_returns_witness :
  is_Some (reports Sample.world !! reportId Sample.dto) /\
  answers 3 (faults Sample.world) = true /\
  audits Sample.world
    !! ulid_source Sample.world (ulids_drawn Sample.world) = None /\
  new_audit Sample.dto Sample.world = new_audit Sample.dto Sample.world.
Proof.
  apply (createAudit_returns Sample.dto Sample.world audited_world
           (new_audit Sample.dto Sample.world)).
  left. reflexivity.
Defined.
